(** * eolearn.geometry.data_transform: raster <-> vector conversion

    A shallow embedding of [VectorToRaster] and [RasterToVector] from
    [eolearn/geometry/data_transform.py], together with the properties of
    the two tasks that the specification states.

    Conventions.
    - Python exceptions are values of [exn]; a computation that may raise
      returns a [result].
    - Statements that read or write the host patch run in the monad [M],
      which threads the [World] (host patch and the store of user data
      frames) and keeps the world reached when an exception is raised.
    - numpy arrays are a shape, a dtype and the row-major list of cells.
    - The geometry kernels (shapely, rasterio) and numpy's cast and
      promotion tables are interfaces ([Shapely], [Rasterio], [NumpyOps]);
      their documented contracts are stated as named propositions and a
      reference instance on pixel sets is given in [PixelRef]. *)

From Stdlib Require Import ZArith QArith Qround List String Lia Bool Sorted.
From stdpp Require Import gmap strings list fin_maps.

Local Open Scope nat_scope.

(** ** Exceptions and results *)

Inductive exn : Type :=
| ValueError
| IndexError
| KeyError
| ZeroDivisionError.

Inductive result (A : Type) : Type :=
| Ok (a : A)
| Raise (e : exn).
Arguments Ok {A} a.
Arguments Raise {A} e.

Definition rbind {A B} (r : result A) (k : A -> result B) : result B :=
  match r with
  | Ok a => k a
  | Raise e => Raise e
  end.

Declare Scope result_scope.
Delimit Scope result_scope with res.
Notation "'let*' x ':=' c 'in' k" := (rbind c (fun x => k))
  (at level 10, x pattern, c at level 100, k at level 200) : result_scope.

(** [for x in xs: acc = body(acc, x)] where the body may raise. *)
Fixpoint rfold {A B} (body : B -> A -> result B) (xs : list A) (acc : B)
  : result B :=
  match xs with
  | [] => Ok acc
  | x :: xs' => rbind (body acc x) (rfold body xs')
  end.

(** A list comprehension [[f(x) for x in xs]] whose element may raise. *)
Fixpoint rmap {A B} (f : A -> result B) (xs : list A) : result (list B) :=
  match xs with
  | [] => Ok []
  | x :: xs' =>
      rbind (f x) (fun y => rbind (rmap f xs') (fun ys => Ok (y :: ys)))
  end.

(** ** numpy arrays *)

Module Numpy.

Inductive DType : Type :=
| np_bool | np_uint8 | np_uint16 | np_uint32
| np_int16 | np_int32 | np_int64
| np_float32 | np_float64.

Record ndarray (A : Type) : Type := mk_ndarray {
  shape : list nat;
  dtype : DType;
  data : list A
}.
Arguments mk_ndarray {A} shape dtype data.
Arguments shape {A} n.
Arguments dtype {A} n.
Arguments data {A} n.

(** Number of cells of an array of the given shape. *)
Definition size_of (sh : list nat) : nat := fold_right Nat.mul 1 sh.

(** [a.squeeze()]: every axis of length one is removed; the cells are
    shared with [a] (a view). *)
Definition squeeze {A} (a : ndarray A) : ndarray A :=
  mk_ndarray (List.filter (fun d => negb (d =? 1)) (shape a))
             (dtype a) (data a).

(** [a[..., np.newaxis]]: a trailing axis of length one. *)
Definition newaxis_last {A} (a : ndarray A) : ndarray A :=
  mk_ndarray (shape a ++ [1]) (dtype a) (data a).

(** [np.ones((height, width), dtype=dt)]; numpy refuses negative
    dimensions with a ValueError. *)
Definition ones (height width : Z) (dt : DType) : result (ndarray Z) :=
  if ((height <? 0) || (width <? 0))%Z then Raise ValueError
  else Ok (mk_ndarray [Z.to_nat height; Z.to_nat width] dt
             (repeat 1%Z (Z.to_nat height * Z.to_nat width))).

(** [np.zeros(shape, dtype=np.bool)]. *)
Definition zeros_bool (sh : list nat) : ndarray bool :=
  mk_ndarray sh np_bool (repeat false (size_of sh)).

(** [a == v], cell by cell. *)
Definition eq_scalar (a : ndarray Z) (v : Z) : ndarray bool :=
  mk_ndarray (shape a) np_bool (map (fun x => (x =? v)%Z) (data a)).

(** [m[sel] = True] for a boolean selector of the shape of [m]. *)
Definition set_true_where (m sel : ndarray bool) : ndarray bool :=
  mk_ndarray (shape m) (dtype m)
    (zip_with (fun old s : bool => if s then true else old)
       (data m) (data sel)).

(** [a.shape[-1]]. *)
Definition last_dim {A} (a : ndarray A) : result nat :=
  match last (shape a) with
  | Some c => Ok c
  | None => Raise IndexError
  end.

(** [a[..., idx]] for [idx] below the length [c] of the last axis:
    the cells at positions [idx], [idx + c], [idx + 2c], ... *)
Definition take_last {A} (dflt : A) (a : ndarray A) (idx : nat) : ndarray A :=
  let c := default 1 (last (shape a)) in
  mk_ndarray (removelast (shape a)) (dtype a)
    (map (fun j => nth (j * c + idx) (data a) dflt)
         (seq 0 (length (data a) / c))).

(** [a[i, ...]] for [i] below the length of the first axis. *)
Definition take_first {A} (a : ndarray A) (i : nat) : ndarray A :=
  let stride := size_of (tail (shape a)) in
  mk_ndarray (tail (shape a)) (dtype a)
    (firstn stride (skipn (i * stride) (data a))).

(** numpy's tables: the dtype of [array * python_scalar] and the value
    a cell takes under [astype]. *)
Class NumpyOps : Type := {
  result_type : DType -> Z -> DType;
  cast_value : DType -> Z -> Z
}.

(** [a * v] for a Python scalar [v]. *)
Definition mul_scalar `{NumpyOps} (a : ndarray Z) (v : Z) : ndarray Z :=
  mk_ndarray (shape a) (result_type (dtype a) v)
    (map (fun x => (x * v)%Z) (data a)).

(** [a.astype(dt)]. *)
Definition astype `{NumpyOps} (a : ndarray Z) (dt : DType) : ndarray Z :=
  mk_ndarray (shape a) dt (map (cast_value dt) (data a)).

End Numpy.
Import Numpy.

(** ** Feature kinds of the host patch *)

(** Modelled from the spec: [eolearn.core.FeatureType] and its predicates
    are imported by the source but are not part of it.  The specification
    asks for a closed tagged variant over temporality and dimensionality;
    the kinds are the ones the source names in its docstrings, closed under
    the [_TIMELESS] suffix. *)
Inductive FeatureType : Type :=
| DATA | MASK | SCALAR | LABEL | VECTOR
| DATA_TIMELESS | MASK_TIMELESS | SCALAR_TIMELESS | LABEL_TIMELESS
| VECTOR_TIMELESS
| META_INFO | BBOX | TIMESTAMP.

Definition is_spatial (ft : FeatureType) : bool :=
  match ft with
  | DATA | MASK | VECTOR | DATA_TIMELESS | MASK_TIMELESS | VECTOR_TIMELESS => true
  | _ => false
  end.

Definition is_time_dependent (ft : FeatureType) : bool :=
  match ft with
  | DATA | MASK | SCALAR | LABEL | VECTOR | TIMESTAMP => true
  | _ => false
  end.

Definition is_timeless (ft : FeatureType) : bool :=
  match ft with
  | DATA_TIMELESS | MASK_TIMELESS | SCALAR_TIMELESS | LABEL_TIMELESS
  | VECTOR_TIMELESS => true
  | _ => false
  end.

Definition is_discrete (ft : FeatureType) : bool :=
  match ft with
  | MASK | MASK_TIMELESS | LABEL | LABEL_TIMELESS => true
  | _ => false
  end.

#[global] Instance FeatureType_eq_dec : EqDecision FeatureType.
Proof. solve_decision. Defined.

Definition FeatureType_code (ft : FeatureType) : nat :=
  match ft with
  | DATA => 0 | MASK => 1 | SCALAR => 2 | LABEL => 3 | VECTOR => 4
  | DATA_TIMELESS => 5 | MASK_TIMELESS => 6 | SCALAR_TIMELESS => 7
  | LABEL_TIMELESS => 8 | VECTOR_TIMELESS => 9
  | META_INFO => 10 | BBOX => 11 | TIMESTAMP => 12
  end.

Definition FeatureType_of_code (n : nat) : option FeatureType :=
  match n with
  | 0 => Some DATA | 1 => Some MASK | 2 => Some SCALAR | 3 => Some LABEL
  | 4 => Some VECTOR | 5 => Some DATA_TIMELESS | 6 => Some MASK_TIMELESS
  | 7 => Some SCALAR_TIMELESS | 8 => Some LABEL_TIMELESS
  | 9 => Some VECTOR_TIMELESS | 10 => Some META_INFO | 11 => Some BBOX
  | 12 => Some TIMESTAMP | _ => None
  end.

#[global] Program Instance FeatureType_countable : Countable FeatureType :=
  inj_countable FeatureType_code FeatureType_of_code _.
Next Obligation. by intros []. Qed.

(** ** Geo-referencing *)

(** [sentinelhub.CRS]: an enumeration whose [value] is the EPSG code. *)
Record CRS : Type := mk_CRS { crs_value : string }.

(** The bounding box of a patch; iterating it yields
    [min_x, min_y, max_x, max_y]. *)
Record BBox : Type := mk_BBox {
  min_x : Q;
  min_y : Q;
  max_x : Q;
  max_y : Q;
  get_crs : CRS
}.

(** [affine.Affine]: the six coefficients of
    [x = a * col + b * row + c], [y = d * col + e * row + f]. *)
Record Affine : Type := mk_Affine {
  aff_a : Q; aff_b : Q; aff_c : Q;
  aff_d : Q; aff_e : Q; aff_f : Q
}.

(** [rasterio.transform.from_bounds(west, south, east, north, width, height)]
    is [Affine.translation(west, north) *
        Affine.scale((east - west) / width, (south - north) / height)];
    the divisions raise on a zero [width] or [height]. *)
Definition from_bounds (west south east north : Q) (width height : Z)
  : result Affine :=
  if ((width =? 0) || (height =? 0))%Z then Raise ZeroDivisionError
  else Ok (mk_Affine ((east - west) / inject_Z width) 0 west
                     0 ((south - north) / inject_Z height) north).

(** ** Interfaces of the geometry kernels *)

(** shapely, and the polygon of a bounding box
    ([sentinelhub.BBox.get_geometry]). *)
Class Shapely (Geometry GeoJSON : Type) : Type := {
  intersects : Geometry -> Geometry -> bool;
  intersection : Geometry -> Geometry -> Geometry;
  is_empty : Geometry -> bool;
  cascaded_union : list Geometry -> Geometry;
  buffer : Geometry -> Q -> Geometry;
  shape_of : GeoJSON -> Geometry;
  get_geometry : BBox -> Geometry
}.

Inductive MergeAlg : Type := merge_replace | merge_add.

(** The keyword arguments forwarded to [rasterio.features.rasterize]. *)
Record RasterizeParams : Type := mk_RasterizeParams {
  all_touched : option bool;
  merge_alg : option MergeAlg
}.

(** The keyword arguments forwarded to [rasterio.features.shapes]. *)
Record ShapesParams : Type := mk_ShapesParams {
  connectivity : option nat
}.

(** rasterio.features.
    - [rasterize shapes out transform dtype params] is the call with
      [out=]: it writes into [out] and the result is the content of
      [out] afterwards, or the exception of the library.
    - [burned shapes transform params sh i] tells whether that call
      writes the cell of flat index [i] of an [out] array of shape [sh].
    - [shapes image mask transform params] is the list the generator
      yields, or the exception of the library.
    - [footprint g] is the set of cells (flat indices of the traced
      image) the polygon [g] was traced around. *)
Class Rasterio (Geometry GeoJSON : Type) : Type := {
  rasterize : list (Geometry * Z) -> ndarray Z -> Affine -> DType ->
              RasterizeParams -> result (list Z);
  burned : list (Geometry * Z) -> Affine -> RasterizeParams ->
           list nat -> nat -> bool;
  shapes : ndarray Z -> option (ndarray bool) -> Affine -> ShapesParams ->
           result (list (GeoJSON * Z));
  footprint : GeoJSON -> list nat
}.

(** ** Data frames, the host patch and the tasks *)

Section Tasks.

Context {Geometry GeoJSON Attrs : Type}.
Context `{!NumpyOps} `{!Shapely Geometry GeoJSON}
        `{!Rasterio Geometry GeoJSON}.

(** *** Contracts of the kernels *)

(** shapely: two geometries that intersect have a non-empty
    intersection. *)
Definition intersects_nonempty : Prop :=
  forall g w : Geometry,
    intersects g w = true -> is_empty (intersection g w) = false.

(** rasterio: with [out=], a cell the call does not burn keeps its
    value, and the array keeps its size. *)
Definition rasterize_frame : Prop :=
  forall shp out tr dt ps d',
    rasterize shp out tr dt ps = Ok d' ->
    length d' = length (data out) /\
    forall i, burned shp tr ps (shape out) i = false ->
              d' !! i = data out !! i.

(** rasterio: unless the merge algorithm is [add], a cell the call burns
    for a single shape holds the value of the shape afterwards. *)
Definition rasterize_writes : Prop :=
  forall (geom : Geometry) (v : Z) out tr dt ps d',
    merge_alg ps <> Some merge_add ->
    rasterize [(geom, v)] out tr dt ps = Ok d' ->
    forall i, i < length (data out) ->
              burned [(geom, v)] tr ps (shape out) i = true ->
              d' !! i = Some v.

(** rasterio: a traced polygon surrounds at least one cell, every cell
    it surrounds holds the value yielded with it and, when a mask is
    given, is selected by the mask. *)
Definition shapes_sound : Prop :=
  forall img m tr ps l g v,
    shapes img m tr ps = Ok l ->
    In (g, v) l ->
    footprint g <> [] /\
    forall i, In i (footprint g) ->
      data img !! i = Some v /\
      forall mk, m = Some mk -> data mk !! i = Some true.

(** *** Frames *)

(** The vector data handed to [VectorToRaster]: a [GeoDataFrame] seen
    as its rows, each a geometry and the remaining columns. *)
Record VRow : Type := mk_VRow {
  geometry : Geometry;
  attributes : Attrs
}.
Definition VectorFrame : Type := list VRow.

(** The cells of the columns [RasterToVector] builds. *)
Inductive Cell : Type :=
| CGeom (g : Geometry)
| CValue (v : Z)
| CTime (t : Z)
| CNaN.

(** The [GeoDataFrame] built by [RasterToVector]: named columns of equal
    length and the [crs] dictionary [{'init': crs_init}]. *)
Record GeoDataFrame : Type := mk_GeoDataFrame {
  columns : gmap string (list Cell);
  nrows : nat;
  crs_init : string
}.

(** *** The host patch and the world *)

Record EOPatch : Type := mk_EOPatch {
  bbox : BBox;
  timestamp : list Z;
  rasters : gmap (FeatureType * string) (ndarray Z);
  vectors : gmap (FeatureType * string) GeoDataFrame
}.

(** The world a task runs in: the host patch and the store of the data
    frames of the caller, addressed by location. *)
Record World : Type := mk_World {
  patch : EOPatch;
  frames : list VectorFrame
}.

Definition M (A : Type) : Type := World -> result A * World.

Definition ret {A} (a : A) : M A := fun w => (Ok a, w).
Definition raise {A} (e : exn) : M A := fun w => (Raise e, w).
Definition lift {A} (r : result A) : M A := fun w => (r, w).
Definition bind {A B} (m : M A) (k : A -> M B) : M B :=
  fun w =>
    match m w with
    | (Ok a, w') => k a w'
    | (Raise e, w') => (Raise e, w')
    end.

Declare Scope M_scope.
Delimit Scope M_scope with M.
Notation "'let!' x ':=' c 'in' k" := (bind c (fun x => k))
  (at level 10, x pattern, c at level 100, k at level 200) : M_scope.

(** [for x in xs: body(x)] over the world. *)
Fixpoint foreach {A} (body : A -> M unit) (xs : list A) : M unit :=
  match xs with
  | [] => ret tt
  | x :: xs' => bind (body x) (fun _ => foreach body xs')
  end.

Definition get_patch : M EOPatch := fun w => (Ok (patch w), w).

(** [eopatch[ft][fn] = a]. *)
Definition set_raster (ft : FeatureType) (fn : string) (a : ndarray Z)
  : M unit :=
  fun w =>
    let p := patch w in
    (Ok tt,
     mk_World (mk_EOPatch (bbox p) (timestamp p)
                 (<[(ft, fn) := a]> (rasters p)) (vectors p))
              (frames w)).

(** A write through a view of [eopatch[ft][fn]]: the cells change, the
    array object (its shape and dtype) stays.  Arrays are held by value
    in the patch: a second feature sharing the buffer of this one is not
    represented, so nothing is stated here about the cells of other
    features. *)
Definition store_cells (ft : FeatureType) (fn : string) (d : list Z)
  : M unit :=
  fun w =>
    let p := patch w in
    (Ok tt,
     mk_World (mk_EOPatch (bbox p) (timestamp p)
                 (alter (fun a => mk_ndarray (shape a) (dtype a) d)
                        (ft, fn) (rasters p))
                 (vectors p))
              (frames w)).

(** [eopatch[ft][fn] = frame] for a vector feature. *)
Definition set_vector (ft : FeatureType) (fn : string) (g : GeoDataFrame)
  : M unit :=
  fun w =>
    let p := patch w in
    (Ok tt,
     mk_World (mk_EOPatch (bbox p) (timestamp p) (rasters p)
                 (<[(ft, fn) := g]> (vectors p)))
              (frames w)).

(** The frame a location refers to. *)
Definition read_frame (l : nat) : M VectorFrame :=
  fun w => (Ok (default [] (frames w !! l)), w).

(** A new frame object; its location is returned. *)
Definition alloc_frame (fr : VectorFrame) : M nat :=
  fun w => (Ok (length (frames w)), mk_World (patch w) (frames w ++ [fr])).

(** Assignment to a column of the frame at a location. *)
Definition update_frame (l : nat) (f : VectorFrame -> VectorFrame) : M unit :=
  fun w =>
    (Ok tt,
     mk_World (patch w)
              (<[l := f (default [] (frames w !! l))]> (frames w))).

(** *** VectorToRaster *)

(** The [raster_shape] argument, by the cases [_get_shape] tells apart. *)
Inductive RasterShape : Type :=
| ShapePair (height width : Z)
    (* a tuple or list of two ints *)
| ShapeFeature (ft : FeatureType) (fn : string)
    (* a pair naming a feature, e.g. (FeatureType.MASK, 'IS_DATA') *)
| ShapeBadPair
    (* any other tuple or list of length two *)
| ShapeOther.
    (* anything that is not a tuple or list of length two *)

Record VectorToRaster : Type := mk_VectorToRaster {
  feature_type : FeatureType;
  feature_name : string;
  vector_data : nat;               (* location of the caller's frame *)
  raster_value : Z;
  raster_shape : RasterShape;
  raster_dtype : DType;
  no_data_value : Z;
  params : RasterizeParams
}.

(** [DataFrame.empty]. *)
Definition frame_empty (fr : VectorFrame) : bool :=
  match fr with [] => true | _ => false end.

(** [VectorToRaster._get_submap]: boolean indexing builds a new frame,
    [copy(deep=True)] another one, and the geometry column of that copy
    is then assigned. *)
Definition _get_submap (t : VectorToRaster) : M nat :=
  (let! p := get_patch in
   let bbox_poly := get_geometry (bbox p) in
   let! vd := read_frame (vector_data t) in
   let! selected :=
     alloc_frame
       (List.filter (fun r => intersects (geometry r) bbox_poly) vd) in
   let! sel := read_frame selected in
   let! filtered_data := alloc_frame sel in
   let! _ :=
     update_frame filtered_data
       (map (fun r => mk_VRow (intersection (geometry r) bbox_poly)
                              (attributes r))) in
   ret filtered_data)%M.

(** [s[lo:hi]] on a shape tuple. *)
Definition slice_shape (lo hi : nat) (sh : list nat) : list Z :=
  map Z.of_nat (firstn (hi - lo) (skipn lo sh)).

(** Modelled from the spec: [EOPatch.get_spatial_dimension] is a method
    of the host patch, which "must expose the ability to report the
    spatial (height, width) of any named feature" and whose time-varying
    features have a leading time axis.  A kind that is neither
    time-varying nor spatial has no spatial dimensions. *)
Definition get_spatial_dimension (p : EOPatch) (ft : FeatureType)
           (fn : string) : result (list Z) :=
  if is_time_dependent ft || is_spatial ft then
    match rasters p !! (ft, fn) with
    | Some a =>
        Ok (if is_time_dependent ft then slice_shape 1 3 (shape a)
            else slice_shape 0 2 (shape a))
    | None => Raise ValueError
    end
  else Raise ValueError.

(** Modelled from the spec: the feature parser of [eolearn.core], called
    on a patch, yields the named feature when the patch holds it and
    raises otherwise. *)
Definition parse_feature_in (p : EOPatch) (ft : FeatureType) (fn : string)
  : result (FeatureType * string) :=
  match rasters p !! (ft, fn) with
  | Some _ => Ok (ft, fn)
  | None => Raise ValueError
  end.

(** [eopatch[ft][fn]] read as an expression. *)
Definition get_raster (p : EOPatch) (ft : FeatureType) (fn : string)
  : result (ndarray Z) :=
  match rasters p !! (ft, fn) with
  | Some a => Ok a
  | None => Raise KeyError
  end.

(** [VectorToRaster._get_shape]. *)
Definition _get_shape (t : VectorToRaster) (p : EOPatch) : result (list Z) :=
  match raster_shape t with
  | ShapePair height width => Ok [height; width]
  | ShapeFeature ft fn =>
      (let* (feature_type, feature_name) := parse_feature_in p ft fn in
       get_spatial_dimension p feature_type feature_name)%res
  | ShapeBadPair => Raise ValueError      (* the feature parser refuses it *)
  | ShapeOther => Raise ValueError
  end.

(** [height, width = seq]. *)
Definition unpack2 (l : list Z) : result (Z * Z) :=
  match l with
  | [x; y] => Ok (x, y)
  | _ => Raise ValueError
  end.

(** Lines 85-88: the grid the shapes are burned into, and whether it
    is a view of the array held by the patch. *)
Definition base_grid (t : VectorToRaster) (p : EOPatch) (height width : Z)
  : result (ndarray Z * bool) :=
  match rasters p !! (feature_type t, feature_name t) with
  | Some a => Ok (squeeze a, true)
  | None =>
      (let* o := ones height width (raster_dtype t) in
       Ok (mul_scalar o (no_data_value t), false))%res
  end.

(** The single (geometry, value) pair handed to the rasterizer. *)
Definition burn_shapes (t : VectorToRaster) (rows : VectorFrame)
  : list (Geometry * Z) :=
  [(buffer (cascaded_union (map geometry rows)) 0, raster_value t)].

(** [VectorToRaster.execute]. *)
Definition VectorToRaster_execute (t : VectorToRaster) : M unit :=
  (let! bbox_map := _get_submap t in
   let! p := get_patch in
   let! (height, width) := lift (rbind (_get_shape t p) unpack2) in
   let b := bbox p in
   let! data_transform :=
     lift (from_bounds (min_x b) (min_y b) (max_x b) (max_y b)
                       width height) in
   let! (raster, shared) := lift (base_grid t p height width) in
   let! rows := read_frame bbox_map in
   let! raster :=
     if negb (frame_empty rows) then
       let! d :=
         lift (rasterize (burn_shapes t rows) raster data_transform
                         (raster_dtype t) (params t)) in
       let! _ :=
         if shared then store_cells (feature_type t) (feature_name t) d
         else ret tt in
       ret (mk_ndarray (shape raster) (dtype raster) d)
     else ret raster in
   set_raster (feature_type t) (feature_name t) (newaxis_last raster))%M.

(** *** RasterToVector *)

Record RasterToVector : Type := mk_RasterToVector {
  feature_gen : list (FeatureType * string * string);
                                   (* (kind, name, new name) *)
  values : option (list Z);
  value_column_name : option string;
  cast_dtype : option DType;       (* the [raster_dtype] argument *)
  shapes_params : ShapesParams     (* the [**params] *)
}.

(** [RasterToVector.__init__]: the fields are set, then every parsed
    feature is checked. *)
Definition RasterToVector_init
           (features : list (FeatureType * string * string))
           (vals : option (list Z)) (column : option string)
           (dt : option DType) (ps : ShapesParams)
  : result RasterToVector :=
  (let self := mk_RasterToVector features vals column dt ps in
   let* _ :=
     rfold (fun _ f =>
              match f with
              | (ft, _, _) =>
                  if negb (is_spatial ft && is_discrete ft)
                  then Raise ValueError
                  else Ok tt
              end)
           (feature_gen self) tt in
   Ok self)%res.

(** Truth value of [self.values]: [None] and the empty list are false. *)
Definition values_truthy (vals : option (list Z)) : bool :=
  match vals with
  | Some (_ :: _) => true
  | _ => false
  end.

(** Lines 158-162: the mask of the permitted values. *)
Definition build_mask (self : RasterToVector) (raster : ndarray Z)
  : option (ndarray bool) :=
  if values_truthy (values self) then
    Some (fold_left
            (fun mask value => set_true_where mask (eq_scalar raster value))
            (default [] (values self))
            (zeros_bool (shape raster)))
  else None.

(** The call of line 167 for channel [idx]. *)
Definition channel_shapes (self : RasterToVector) (raster : ndarray Z)
           (data_transform : Affine) (idx : nat)
  : result (list (GeoJSON * Z)) :=
  shapes (take_last 0%Z raster idx)
         (option_map (fun mask => take_last false mask idx)
                     (build_mask self raster))
         data_transform (shapes_params self).

(** Lines 164-171: the two lists filled by the loop over the channels. *)
Definition trace_channels (self : RasterToVector) (raster : ndarray Z)
           (data_transform : Affine)
  : result (list Geometry * list Z) :=
  (let* channels := last_dim raster in
   rfold (fun lists idx =>
            let* found := channel_shapes self raster data_transform idx in
            Ok (fold_left
                  (fun lists gv =>
                     (fst lists ++ [shape_of (fst gv)],
                      snd lists ++ [snd gv]))
                  found lists))
         (seq 0 channels) ([], []))%res.

(** The name of the timestamp column ([FeatureType.TIMESTAMP.value]);
    the docstring of the task calls the column [TIMESTAMP]. *)
Definition TIMESTAMP_value : string := "TIMESTAMP".

(** [RasterToVector._vectorize_single_raster]. *)
Definition _vectorize_single_raster (self : RasterToVector)
           (raster : ndarray Z) (data_transform : Affine) (crs : CRS)
           (timestamp : option Z) : result GeoDataFrame :=
  (let* (geo_list, value_list) :=
     trace_channels self raster data_transform in
   let series_dict : gmap string (list Cell) :=
     {[ "geometry" := map CGeom geo_list ]} in
   let series_dict :=
     match value_column_name self with
     | Some name => <[name := map CValue value_list]> series_dict
     | None => series_dict
     end in
   let series_dict :=
     match timestamp with
     | Some ts =>
         <[TIMESTAMP_value := repeat (CTime ts) (length geo_list)]>
           series_dict
     | None => series_dict
     end in
   Ok (mk_GeoDataFrame series_dict (length geo_list)
                       ("epsg:" ++ crs_value crs)))%res.

(** One step of [pandas.concat(..., ignore_index=True)]: the rows of the
    second table follow the rows of the first; a column one table lacks
    is filled with NaN. *)
Definition concat_step (acc : gmap string (list Cell) * nat)
           (g : GeoDataFrame) : gmap string (list Cell) * nat :=
  (merge (fun c1 c2 =>
            match c1, c2 with
            | Some x, Some y => Some (x ++ y)
            | Some x, None => Some (x ++ repeat CNaN (nrows g))
            | None, Some y => Some (repeat CNaN (snd acc) ++ y)
            | None, None => None
            end)
         (fst acc) (columns g),
   snd acc + nrows g).

(** [pandas.concat(gpd_list, ignore_index=True)]; pandas raises
    "No objects to concatenate" on an empty list.  The result is a plain
    table: the CRS is attached afterwards, from [gpd_list[0].crs]. *)
Definition pandas_concat (gpd_list : list GeoDataFrame)
  : result (gmap string (list Cell) * nat) :=
  match gpd_list with
  | [] => Raise ValueError
  | g :: rest => Ok (fold_left concat_step rest (columns g, nrows g))
  end.

(** [l[i]] on a Python list. *)
Definition index {A} (l : list A) (i : nat) : result A :=
  match l !! i with
  | Some x => Ok x
  | None => Raise IndexError
  end.

(** Lines 211-212: the composition of the tables of the time slices. *)
Definition compose (gpd_list : list GeoDataFrame) : result GeoDataFrame :=
  (let* df := pandas_concat gpd_list in
   let* first := index gpd_list 0 in
   Ok (mk_GeoDataFrame (fst df) (snd df) (crs_init first)))%res.

(** Lines 207-209: the list of the tables of the time slices. *)
Definition slice_tables (self : RasterToVector) (stamps : list Z)
           (raster : ndarray Z) (data_transform : Affine) (crs : CRS)
  : result (list GeoDataFrame) :=
  rmap (fun time_idx =>
          let* ts := index stamps time_idx in
          _vectorize_single_raster self (take_first raster time_idx)
                                   data_transform crs (Some ts))%res
       (seq 0 (default 0 (head (shape raster)))).

(** The body of the loop of [RasterToVector.execute]. *)
Definition vectorize_feature (self : RasterToVector)
           (f : FeatureType * string * string) : M unit :=
  match f with
  | (raster_ft, raster_fn, vector_fn) =>
    (let! p := get_patch in
     let! _ := lift (parse_feature_in p raster_ft raster_fn) in
     let vector_ft :=
       if is_timeless raster_ft then VECTOR_TIMELESS else VECTOR in
     let! raster := lift (get_raster p raster_ft raster_fn) in
     let! (height, width) :=
       lift (unpack2 (if is_timeless raster_ft
                      then slice_shape 0 2 (shape raster)
                      else slice_shape 1 3 (shape raster))) in
     let raster :=
       match cast_dtype self with
       | Some dt => astype raster dt
       | None => raster
       end in
     let b := bbox p in
     let! data_transform :=
       lift (from_bounds (min_x b) (min_y b) (max_x b) (max_y b)
                         width height) in
     let crs := get_crs b in
     if is_timeless raster_ft then
       let! table :=
         lift (_vectorize_single_raster self raster data_transform crs
                                        None) in
       set_vector vector_ft vector_fn table
     else
       let! gpd_list :=
         lift (slice_tables self (timestamp p) raster data_transform crs) in
       let! table := lift (compose gpd_list) in
       set_vector vector_ft vector_fn table)%M
  end.

(** [RasterToVector.execute]. *)
Definition RasterToVector_execute (self : RasterToVector) : M unit :=
  foreach (vectorize_feature self) (feature_gen self).

(** [RasterToVector(features, ...).execute(eopatch)]: the task is
    configured, then run on the patch. *)
Definition RasterToVector_run
           (features : list (FeatureType * string * string))
           (vals : option (list Z)) (column : option string)
           (dt : option DType) (ps : ShapesParams) : M unit :=
  bind (lift (RasterToVector_init features vals column dt ps))
       RasterToVector_execute.

(** *** Notions used by the statements *)

(** The rows of a frame clipped to a window polygon. *)
Definition clipped (poly : Geometry) (vd : VectorFrame) : VectorFrame :=
  map (fun r => mk_VRow (intersection (geometry r) poly) (attributes r))
      (List.filter (fun r => intersects (geometry r) poly) vd).

(** The frame held at the location of the task's vector data. *)
Definition input_frame (t : VectorToRaster) (w : World) : VectorFrame :=
  default [] (frames w !! vector_data t).

(** The clipped frame [_get_submap] builds in a given world. *)
Definition submap_rows (t : VectorToRaster) (w : World) : VectorFrame :=
  clipped (get_geometry (bbox (patch w))) (input_frame t w).

(** The world [_get_submap] leaves: two new frames, the patch and the
    frames that existed are as before. *)
Definition submap_world (t : VectorToRaster) (w : World) : World :=
  mk_World (patch w)
    (frames w ++
       [List.filter
          (fun r => intersects (geometry r) (get_geometry (bbox (patch w))))
          (input_frame t w);
        submap_rows t w]).

(** The transform [execute] derives from the bounding box of the patch. *)
Definition patch_transform (p : EOPatch) (width height : Z)
  : result Affine :=
  from_bounds (min_x (bbox p)) (min_y (bbox p)) (max_x (bbox p))
              (max_y (bbox p)) width height.

(** The rasterizer accepts the call [execute] makes on the base grid. *)
Definition kernel_accepts (t : VectorToRaster) (w : World)
           (height width : Z) (tr : Affine) : Prop :=
  forall base shared,
    base_grid t (patch w) height width = Ok (base, shared) ->
    frame_empty (submap_rows t w) = false ->
    exists d, rasterize (burn_shapes t (submap_rows t w)) base tr
                        (raster_dtype t) (params t) = Ok d.

(** The cells of the grid after the statement of lines 90-92. *)
Definition burnt_cells (t : VectorToRaster) (w : World) (tr : Affine)
           (base : ndarray Z) (d : list Z) : Prop :=
  if frame_empty (submap_rows t w) then d = data base
  else rasterize (burn_shapes t (submap_rows t w)) base tr
                 (raster_dtype t) (params t) = Ok d.

(** The requested shape is an explicit pair of ints. *)
Definition explicit_pair (rs : RasterShape) : bool :=
  match rs with
  | ShapePair _ _ => true
  | _ => false
  end.

(** The requested shape names a feature of the patch whose spatial
    dimensions the patch reports as a pair. *)
Definition resolvable_reference (p : EOPatch) (rs : RasterShape) : bool :=
  match rs with
  | ShapeFeature ft fn =>
      match get_spatial_dimension p ft fn with
      | Ok [_; _] => true
      | _ => false
      end
  | _ => false
  end.

(** What the tracer yields, channel by channel, for one slice. *)
Definition traced_pairs (self : RasterToVector) (raster : ndarray Z)
           (data_transform : Affine)
  : result (list (list (GeoJSON * Z))) :=
  (let* channels := last_dim raster in
   rmap (channel_shapes self raster data_transform) (seq 0 channels))%res.

(** The cells of a column of a table; no cells when the table lacks the
    column. *)
Definition column (name : string) (g : GeoDataFrame) : list Cell :=
  default [] (columns g !! name).

(** The raster [execute] vectorizes: the feature, cast when asked. *)
Definition cast_raster (self : RasterToVector) (a : ndarray Z) : ndarray Z :=
  match cast_dtype self with
  | Some dt => astype a dt
  | None => a
  end.

(** Every column of a table has as many cells as the table has rows. *)
Definition well_formed (g : GeoDataFrame) : Prop :=
  forall name col, columns g !! name = Some col -> length col = nrows g.

(** The feature a parsed feature is vectorized into. *)
Definition destination (f : FeatureType * string * string)
  : FeatureType * string :=
  (if is_timeless (fst (fst f)) then VECTOR_TIMELESS else VECTOR, snd f).

(** The kind of a parsed feature is accepted by [RasterToVector]. *)
Definition accepted_kind (f : FeatureType * string * string) : bool :=
  is_spatial (fst (fst f)) && is_discrete (fst (fst f)).

(** The timestamps held by a column. *)
Definition column_times (col : list Cell) : list Z :=
  omap (fun c => match c with CTime t => Some t | _ => None end) col.

End Tasks.

(** ** A reference instance of the kernels on pixel sets

    Geometries are finite sets of unit squares of the integer lattice, a
    square being named by its lower-left corner.  The rasterizer burns the
    pixels whose centre falls in a square of the geometry; the tracer
    emits one square per selected pixel. *)

Module PixelRef.

Definition Geometry : Type := list (Z * Z).

Record GeoJSON : Type := mk_GeoJSON {
  traced_cells : list nat;
  coordinates : list (Z * Z)
}.

Definition mem (c : Z * Z) (g : Geometry) : bool :=
  bool_decide (c ∈ g).

(** The lattice square holding the centre of pixel [(row, col)]. *)
Definition pixel_square (tr : Affine) (row col : nat) : Z * Z :=
  let x := (inject_Z (Z.of_nat col) + (1 # 2))%Q in
  let y := (inject_Z (Z.of_nat row) + (1 # 2))%Q in
  (Qfloor (aff_a tr * x + aff_b tr * y + aff_c tr),
   Qfloor (aff_d tr * x + aff_e tr * y + aff_f tr)).

(** The squares with lower-left corner in [[lo, hi)] along one axis. *)
Definition lattice_range (lo hi : Q) : list Z :=
  map (fun k => (Qfloor lo + Z.of_nat k)%Z)
      (seq 0 (Z.to_nat (Qceiling hi - Qfloor lo))).

#[global] Instance shapely : Shapely Geometry GeoJSON := {|
  intersects g w := existsb (fun c => mem c w) g;
  intersection g w := List.filter (fun c => mem c w) g;
  is_empty g := match g with [] => true | _ => false end;
  cascaded_union gs := remove_dups (concat gs);
  buffer g _ := g;
  shape_of j := coordinates j;
  get_geometry b :=
    flat_map (fun x => map (fun y => (x, y))
                           (lattice_range (min_y b) (max_y b)))
             (lattice_range (min_x b) (max_x b))
|}.

(** Whether pixel [i] of a grid of shape [sh] is burned by [g]. *)
Definition covers (g : Geometry) (tr : Affine) (sh : list nat) (i : nat)
  : bool :=
  match sh with
  | [_; w] => mem (pixel_square tr (i / w) (i mod w)) g
  | _ => false
  end.

Definition burn_one (tr : Affine) (ps : RasterizeParams) (sh : list nat)
           (cells : list Z) (gv : Geometry * Z) : list Z :=
  imap (fun i old =>
          if covers (fst gv) tr sh i then
            match merge_alg ps with
            | Some merge_add => (old + snd gv)%Z
            | _ => snd gv
            end
          else old)
       cells.

#[global] Instance rasterio : Rasterio Geometry GeoJSON := {|
  rasterize shp out tr _ ps :=
    match shape out with
    | [_; _] => Ok (fold_left (burn_one tr ps (shape out)) shp (data out))
    | _ => Raise ValueError
    end;
  burned shp tr _ sh i := existsb (fun gv => covers (fst gv) tr sh i) shp;
  shapes img m tr _ :=
    match shape img with
    | [_; w] =>
        Ok (omap (fun i =>
                    match data img !! i with
                    | Some v =>
                        if match m with
                           | Some mk => default false (data mk !! i)
                           | None => true
                           end
                        then Some (mk_GeoJSON
                                     [i] [pixel_square tr (i / w) (i mod w)],
                                   v)
                        else None
                    | None => None
                    end)
                 (seq 0 (length (data img))))
    | _ => Raise ValueError
    end;
  footprint j := traced_cells j
|}.

(** Integer dtypes wrap around; the other dtypes keep the value.  The
    product of an array and a scalar keeps the dtype of the array. *)
Definition wrap (bits : Z) (signed : bool) (v : Z) : Z :=
  if signed then ((v + 2 ^ (bits - 1)) mod 2 ^ bits - 2 ^ (bits - 1))%Z
  else (v mod 2 ^ bits)%Z.

#[global] Instance numpy_ops : NumpyOps := {|
  result_type dt _ := dt;
  cast_value dt v :=
    match dt with
    | np_bool => if (v =? 0)%Z then 0%Z else 1%Z
    | np_uint8 => wrap 8 false v
    | np_uint16 => wrap 16 false v
    | np_uint32 => wrap 32 false v
    | np_int16 => wrap 16 true v
    | np_int32 => wrap 32 true v
    | np_int64 => wrap 64 true v
    | np_float32 | np_float64 => v
    end
|}.

End PixelRef.

(** ** Concrete patches and tasks, on the reference kernels *)

Module Examples.

Import PixelRef.
Local Open Scope string_scope.

(** A window of three by two units in EPSG:4326. *)
Definition window : BBox := mk_BBox 0 0 3 2 (mk_CRS "4326").

(** A patch with a 2 x 3 timeless mask and a 3 x 3 one. *)
Definition mask_patch : EOPatch (Geometry := Geometry) :=
  mk_EOPatch window [10%Z; 20%Z]
    (<[(MASK_TIMELESS, "big") :=
         mk_ndarray [3; 3; 1] np_int16 [9; 9; 9; 9; 9; 9; 9; 9; 9]%Z]>
       (<[(MASK_TIMELESS, "m") :=
            mk_ndarray [2; 3; 1] np_uint8 [7; 7; 7; 7; 7; 7]%Z]> ∅))
    ∅.

(** Two rows: one reaches into the window, one lies outside. *)
Definition roads : VectorFrame (Geometry := Geometry) (Attrs := string) :=
  [mk_VRow [(0, 0); (1, 0); (5, 5)]%Z "a"; mk_VRow [(9, 9)]%Z "b"].

(** Rows that all lie outside the window. *)
Definition far_away : VectorFrame (Geometry := Geometry) (Attrs := string) :=
  [mk_VRow [(7, 7)]%Z "c"; mk_VRow [(9, 9)]%Z "b"].

Definition world_roads : World := mk_World mask_patch [roads].
Definition world_far : World := mk_World mask_patch [far_away].

Definition no_params : RasterizeParams := mk_RasterizeParams None None.

(** Burn into the existing mask ["m"] at its own shape. *)
Definition burn_existing : VectorToRaster :=
  mk_VectorToRaster MASK_TIMELESS "m" 0 1%Z (ShapePair 2 3) np_uint8 0%Z
                    no_params.

(** Burn into a feature the patch does not hold yet. *)
Definition burn_new : VectorToRaster :=
  mk_VectorToRaster MASK_TIMELESS "n" 0 1%Z (ShapePair 2 3) np_uint8 0%Z
                    no_params.

(** Burn into the existing 3 x 3 mask while asking for 2 x 2 cells of
    another dtype. *)
Definition burn_big : VectorToRaster :=
  mk_VectorToRaster MASK_TIMELESS "big" 0 1%Z (ShapePair 2 2) np_uint8 0%Z
                    no_params.

(** A request whose shape is a single number. *)
Definition burn_unresolved : VectorToRaster :=
  mk_VectorToRaster MASK_TIMELESS "m" 0 1%Z ShapeOther np_uint8 0%Z
                    no_params.

(** The transforms of the window for 2 x 3 and for 2 x 2 cells. *)
Definition transform_2x3 : Affine :=
  mk_Affine ((3 - 0) / inject_Z 3) 0 0 0 ((0 - 2) / inject_Z 2) 2.
Definition transform_2x2 : Affine :=
  mk_Affine ((3 - 0) / inject_Z 2) 0 0 0 ((0 - 2) / inject_Z 2) 2.
Definition transform_1x2 : Affine :=
  mk_Affine ((3 - 0) / inject_Z 2) 0 0 0 ((0 - 2) / inject_Z 1) 2.

(** A patch with a time-varying mask of two slices of 1 x 2 cells and
    one channel, under the given timestamps. *)
Definition series_patch (stamps : list Z) : EOPatch (Geometry := Geometry) :=
  mk_EOPatch window stamps
    (<[(MASK, "m") := mk_ndarray [2; 1; 2; 1] np_uint8 [1; 0; 0; 2]%Z]>
       (<[(MASK_TIMELESS, "t") :=
            mk_ndarray [1; 2; 1] np_uint8 [5; 5]%Z]> ∅))
    ∅.

Definition series_world (stamps : list Z) : World (Attrs := string) :=
  mk_World (series_patch stamps) [].

Definition shapes_defaults : ShapesParams := mk_ShapesParams None.

(** Vectorize the values 1 and 2 of the mask ["m"] into ["v"]. *)
Definition vectorize_12 : RasterToVector :=
  mk_RasterToVector [(MASK, "m", "v")] (Some [1; 2]%Z) (Some "VALUE") None
                    shapes_defaults.

(** The same task with an empty list of values. *)
Definition vectorize_none : RasterToVector :=
  mk_RasterToVector [(MASK, "m", "v")] (Some []) (Some "VALUE") None
                    shapes_defaults.

(** Vectorize the timeless mask ["t"]. *)
Definition vectorize_timeless : RasterToVector :=
  mk_RasterToVector [(MASK_TIMELESS, "t", "v")] None (Some "VALUE") None
                    shapes_defaults.

(** The table of a slice with one polygon. *)
Definition slice_table (stamp value x : Z) : GeoDataFrame (Geometry := Geometry) :=
  mk_GeoDataFrame
    (<[TIMESTAMP_value := [CTime stamp]]>
       (<["VALUE" := [CValue value]]>
          {[ "geometry" := [CGeom [(x, 1%Z)]] ]}))
    1 "epsg:4326".

(** The mask ["m"] of [series_patch] and the tables of its two slices. *)
Definition series_mask : ndarray Z :=
  mk_ndarray [2; 1; 2; 1] np_uint8 [1; 0; 0; 2]%Z.
Definition series_tables : list (GeoDataFrame (Geometry := Geometry)) :=
  [slice_table 10 1 0; slice_table 20 2 2].

(** A world whose patch holds the single-row mask ["t"], and a task that
    burns into it. *)
Definition row_world : World := mk_World (series_patch [10; 20]%Z) [far_away].
Definition burn_row : VectorToRaster :=
  mk_VectorToRaster MASK_TIMELESS "t" 0 1%Z (ShapePair 1 2) np_uint8 0%Z
                    no_params.

(** A patch with a mask of a single axis and a time-varying mask without
    any time slice. *)
Definition flat_mask : ndarray Z := mk_ndarray [2] np_uint8 [1; 2]%Z.
Definition odd_patch : EOPatch (Geometry := Geometry) :=
  mk_EOPatch window [10%Z; 20%Z]
    (<[(MASK_TIMELESS, "flat") := flat_mask]>
       (<[(MASK, "none") := mk_ndarray [0; 1; 2; 1] np_uint8 []]> ∅))
    ∅.
Definition odd_world : World (Attrs := string) := mk_World odd_patch [].

(** The world of [world_roads] with one more row outside the window. *)
Definition world_more_roads : World :=
  mk_World mask_patch [mk_VRow [(8, 8)%Z] "d" :: roads].

(** A slice of one row, two columns and two channels: channel 0 holds
    1 and 3, channel 1 holds 2 and 4. *)
Definition two_channel_mask : ndarray Z :=
  mk_ndarray [1; 2; 2] np_uint8 [1; 2; 3; 4]%Z.

(** Vectorize the time-varying mask ["m"] and the timeless mask ["t"] in
    one call. *)
Definition vectorize_both : RasterToVector :=
  mk_RasterToVector [(MASK, "m", "v"); (MASK_TIMELESS, "t", "u")]
                    None (Some "VALUE") None shapes_defaults.

End Examples.

(** ** Properties *)

Section Properties.

Context {Geometry GeoJSON Attrs : Type}.
Context `{!NumpyOps} `{!Shapely Geometry GeoJSON}
        `{!Rasterio Geometry GeoJSON}.

Implicit Types (w : @World Geometry Attrs) (p : @EOPatch Geometry).
Implicit Types (vd rows : @VectorFrame Geometry Attrs).
Implicit Types (t : VectorToRaster) (self : RasterToVector).
Implicit Types (g table : @GeoDataFrame Geometry).
Implicit Types (tables : list (@GeoDataFrame Geometry)).

(** *** The window clipper *)

(** Allocating two frames in a row and updating the second one. *)
Lemma alloc_copy_update {A} (fr : list (list A)) (sel : list A)
      (f : list A -> list A) :
  <[length (fr ++ [sel]) :=
      f (default [] (((fr ++ [sel]) ++ [default [] ((fr ++ [sel]) !! length fr)])
                       !! length (fr ++ [sel])))]>
    ((fr ++ [sel]) ++ [default [] ((fr ++ [sel]) !! length fr)])
  = fr ++ [sel; f sel].
Proof.
  rewrite (list_lookup_middle fr [] sel (length fr) eq_refl).
  change (default [] (Some sel)) with sel.
  rewrite (list_lookup_middle (fr ++ [sel]) [] sel _ eq_refl).
  change (default [] (Some sel)) with sel.
  rewrite <- (Nat.add_0_r (length (fr ++ [sel]))).
  rewrite insert_app_r. cbn. rewrite <- app_assoc. reflexivity.
Qed.

Lemma get_submap_run t w :
  _get_submap t w = (Ok (S (length (frames w))), submap_world t w).
Proof.
  unfold _get_submap, bind, get_patch, read_frame, alloc_frame,
    update_frame, ret, submap_world, submap_rows, clipped, input_frame.
  cbn [patch frames fst snd].
  f_equal.
  - f_equal. rewrite length_app. cbn [length]. lia.
  - f_equal. apply (alloc_copy_update (frames w) _ (map _)).
Qed.

Lemma lookup_second_new {A} (l : list A) (x y : A) :
  (l ++ [x; y]) !! S (length l) = Some y.
Proof. induction l as [|z l IH]; [reflexivity | exact IH]. Qed.

Lemma lookup_old {A} (l new : list A) (i : nat) (x : A) :
  l !! i = Some x -> (l ++ new) !! i = Some x.
Proof. intros Hx. apply lookup_app_l_Some. exact Hx. Qed.

Lemma read_submap t w :
  default [] (frames (submap_world t w) !! S (length (frames w)))
  = submap_rows t w.
Proof.
  unfold submap_world. cbn [frames].
  rewrite lookup_second_new. reflexivity.
Qed.

(** [VectorToRaster.execute], one statement after the other. *)
Lemma VectorToRaster_execute_run t w :
  VectorToRaster_execute t w =
  let w1 := submap_world t w in
  let rows := submap_rows t w in
  match rbind (_get_shape t (patch w)) unpack2 with
  | Raise e => (Raise e, w1)
  | Ok (height, width) =>
    match patch_transform (patch w) width height with
    | Raise e => (Raise e, w1)
    | Ok tr =>
      match base_grid t (patch w) height width with
      | Raise e => (Raise e, w1)
      | Ok (raster, shared) =>
        if frame_empty rows then
          set_raster (feature_type t) (feature_name t)
                     (newaxis_last raster) w1
        else
          match rasterize (burn_shapes t rows) raster tr (raster_dtype t)
                          (params t) with
          | Raise e => (Raise e, w1)
          | Ok d =>
            set_raster (feature_type t) (feature_name t)
              (newaxis_last (mk_ndarray (shape raster) (dtype raster) d))
              (if shared
               then snd (store_cells (feature_type t) (feature_name t) d w1)
               else w1)
          end
      end
    end
  end.
Proof.
  unfold VectorToRaster_execute, bind at 1. rewrite get_submap_run.
  unfold bind at 1. unfold get_patch at 1.
  change (patch (submap_world t w)) with (patch w).
  unfold bind at 1, lift at 1.
  destruct (rbind (_get_shape t (patch w)) unpack2) as [[height width]|e];
    [|reflexivity].
  unfold bind at 1, lift at 1, patch_transform. cbn zeta.
  destruct (from_bounds _ _ _ _ width height) as [tr|e]; [|reflexivity].
  unfold bind at 1, lift at 1.
  destruct (base_grid t (patch w) height width) as [[raster shared]|e];
    [|reflexivity].
  unfold bind at 1, read_frame at 1. rewrite read_submap.
  destruct (frame_empty (submap_rows t w)); cbn [negb].
  - reflexivity.
  - unfold bind at 1. unfold bind at 1, lift at 1.
    destruct (rasterize _ raster tr _ _) as [d|e]; [|reflexivity].
    unfold bind at 1. destruct shared; reflexivity.
Qed.

Lemma set_raster_lookup ft fn (a : ndarray Z) w :
  fst (set_raster ft fn a w) = Ok tt /\
  rasters (patch (snd (set_raster ft fn a w))) !! (ft, fn) = Some a.
Proof.
  unfold set_raster. cbn. split; [reflexivity | apply lookup_insert_eq].
Qed.

(** A call whose shape resolves, whose transform exists and whose
    rasterizer call is accepted completes and stores the base grid, burnt,
    with a trailing axis. *)
Lemma VectorToRaster_execute_success t w height width tr base shared :
  rbind (_get_shape t (patch w)) unpack2 = Ok (height, width) ->
  patch_transform (patch w) width height = Ok tr ->
  base_grid t (patch w) height width = Ok (base, shared) ->
  kernel_accepts t w height width tr ->
  exists d w',
    burnt_cells t w tr base d /\
    VectorToRaster_execute t w = (Ok tt, w') /\
    rasters (patch w') !! (feature_type t, feature_name t)
    = Some (newaxis_last (mk_ndarray (shape base) (dtype base) d)).
Proof.
  intros Hshape Htr Hbase Hacc.
  rewrite VectorToRaster_execute_run. cbn zeta.
  rewrite Hshape, Htr, Hbase. unfold burnt_cells.
  destruct (frame_empty (submap_rows t w)) eqn:Hempty.
  - exists (data base).
    eexists. split; [reflexivity|]. split.
    + unfold set_raster. reflexivity.
    + cbn. rewrite lookup_insert_eq. destruct base; reflexivity.
  - destruct (Hacc base shared Hbase Hempty) as [d Hd].
    rewrite Hd. exists d. eexists. split; [reflexivity|]. split.
    + unfold set_raster. reflexivity.
    + cbn. apply lookup_insert_eq.
Qed.

(** *** The window clipper (C5) *)

(** C5. [_get_submap] returns a new frame holding exactly the rows of the
    input whose geometry intersects the window, in their order, each with
    its geometry replaced by the intersection with the window polygon; no
    returned geometry is empty; every frame that existed before the call,
    the input among them, is unchanged, and so is the patch. *)
Theorem window_clipper_contract t w :
  intersects_nonempty ->
  let poly := get_geometry (bbox (patch w)) in
  let vd := input_frame t w in
  exists l w',
    _get_submap t w = (Ok l, w') /\
    frames w' !! l
    = Some (map (fun r => mk_VRow (intersection (geometry r) poly)
                                  (attributes r))
                (List.filter (fun r => intersects (geometry r) poly) vd)) /\
    (forall out, frames w' !! l = Some out ->
       (forall r', In r' out <->
          exists r, In r vd /\ intersects (geometry r) poly = true /\
                    r' = mk_VRow (intersection (geometry r) poly)
                                 (attributes r)) /\
       (forall r', In r' out -> is_empty (geometry r') = false)) /\
    (forall l0 fr, frames w !! l0 = Some fr -> frames w' !! l0 = Some fr) /\
    patch w' = patch w.
Proof.
  intros Hne poly vd.
  exists (S (length (frames w))), (submap_world t w).
  split; [apply get_submap_run|].
  assert (Hl : frames (submap_world t w) !! S (length (frames w))
               = Some (submap_rows t w))
    by (unfold submap_world; cbn [frames]; apply lookup_second_new).
  split; [exact Hl|]. split; [|split].
  - intros out Hout.
    pose proof (eq_trans (eq_sym Hout) Hl) as Heq. injection Heq as ->.
    assert (Hin : forall r', In r' (submap_rows t w) <->
              exists r, In r vd /\ intersects (geometry r) poly = true /\
                        r' = mk_VRow (intersection (geometry r) poly)
                                     (attributes r)).
    { intros r'. unfold submap_rows, clipped. rewrite in_map_iff. split.
      - intros [r [<- Hr]]. apply filter_In in Hr as [Hr Hi]. eauto.
      - intros [r [Hr [Hi ->]]]. exists r. split; [reflexivity|].
        apply filter_In. auto. }
    split; [exact Hin|].
    intros r' Hr'. apply Hin in Hr' as [r [_ [Hi ->]]].
    cbn [geometry]. apply Hne, Hi.
  - intros l0 fr Hfr. unfold submap_world. cbn [frames].
    apply lookup_old, Hfr.
  - reflexivity.
Qed.

(** *** Unresolvable output shape (C6) *)

Lemma unresolved_shape t p :
  explicit_pair (raster_shape t) = false ->
  resolvable_reference p (raster_shape t) = false ->
  rbind (_get_shape t p) unpack2 = Raise ValueError.
Proof.
  unfold _get_shape, explicit_pair, resolvable_reference.
  destruct (raster_shape t) as [h wd|ft fn| |]; intros He Hr;
    try discriminate; try reflexivity.
  unfold parse_feature_in.
  destruct (rasters p !! (ft, fn)) as [a|] eqn:Ha; [|reflexivity].
  cbn [rbind].
  destruct (get_spatial_dimension p ft fn) as [[|x [|y [|z l]]]|e] eqn:Hd;
    try reflexivity; try discriminate.
  unfold get_spatial_dimension in Hd.
  destruct (is_time_dependent ft || is_spatial ft).
  - rewrite Ha in Hd. discriminate.
  - injection Hd as <-. reflexivity.
Qed.

(** C6. When the requested shape is neither an explicit pair of ints nor
    a reference to a feature whose spatial dimensions the patch reports,
    [execute] raises a ValueError and the host patch is exactly as it was
    before the call. *)
Theorem unresolved_shape_raises_before_mutation t w :
  explicit_pair (raster_shape t) = false ->
  resolvable_reference (patch w) (raster_shape t) = false ->
  exists w',
    VectorToRaster_execute t w = (Raise ValueError, w') /\
    patch w' = patch w.
Proof.
  intros He Hr. exists (submap_world t w).
  rewrite VectorToRaster_execute_run. cbn zeta.
  rewrite (unresolved_shape t (patch w) He Hr). split; reflexivity.
Qed.

(** *** Empty clip (C8) *)

Lemma no_intersection_empty_clip t w :
  Forall (fun r => intersects (geometry r) (get_geometry (bbox (patch w)))
                   = false) (input_frame t w) ->
  submap_rows t w = [].
Proof.
  unfold submap_rows, clipped. intros Hall.
  induction Hall as [|r l Hr _ IH]; [reflexivity|].
  cbn [List.filter]. rewrite Hr. exact IH.
Qed.

(** C8. When no geometry of the vector data intersects the window and
    the target feature exists, the call leaves the cells (and the dtype)
    of that feature as they were, whether it completes or raises; and it
    completes whenever the shape resolves and the transform exists: the
    empty clip is no error. *)
Theorem empty_clip_leaves_grid t w a :
  rasters (patch w) !! (feature_type t, feature_name t) = Some a ->
  Forall (fun r => intersects (geometry r) (get_geometry (bbox (patch w)))
                   = false) (input_frame t w) ->
  (exists a',
     rasters (patch (snd (VectorToRaster_execute t w)))
       !! (feature_type t, feature_name t) = Some a' /\
     data a' = data a /\ dtype a' = dtype a) /\
  (forall height width tr,
     rbind (_get_shape t (patch w)) unpack2 = Ok (height, width) ->
     patch_transform (patch w) width height = Ok tr ->
     fst (VectorToRaster_execute t w) = Ok tt).
Proof.
  intros Ha Hall. apply no_intersection_empty_clip in Hall.
  rewrite VectorToRaster_execute_run. cbn zeta. rewrite Hall.
  cbn [frame_empty]. unfold base_grid. rewrite Ha. split.
  - destruct (rbind (_get_shape t (patch w)) unpack2) as [[h wd]|e].
    + destruct (patch_transform (patch w) wd h) as [tr|e].
      * exists (newaxis_last (squeeze a)). cbn.
        rewrite lookup_insert_eq. auto.
      * exists a. cbn. auto.
    + exists a. cbn. auto.
  - intros h wd tr Hs Ht. rewrite Hs, Ht. reflexivity.
Qed.

(** *** The base grid (C3, C9, C10) *)

Lemma base_grid_existing t p height width a :
  rasters p !! (feature_type t, feature_name t) = Some a ->
  base_grid t p height width = Ok (squeeze a, true).
Proof. intros Ha. unfold base_grid. rewrite Ha. reflexivity. Qed.

Lemma base_grid_fresh t p height width :
  rasters p !! (feature_type t, feature_name t) = None ->
  (0 <= height)%Z -> (0 <= width)%Z ->
  base_grid t p height width
  = Ok (mk_ndarray [Z.to_nat height; Z.to_nat width]
          (result_type (raster_dtype t) (no_data_value t))
          (map (fun x => (x * no_data_value t)%Z)
               (repeat 1%Z (Z.to_nat height * Z.to_nat width))),
        false).
Proof.
  intros Ha Hh Hw. unfold base_grid, ones. rewrite Ha.
  destruct (Z.ltb_spec height 0); [lia|].
  destruct (Z.ltb_spec width 0); [lia|]. reflexivity.
Qed.


Lemma lookup_repeat_lt {A} (x : A) (n i : nat) :
  i < n -> repeat x n !! i = Some x.
Proof.
  revert i. induction n as [|n IH]; intros i Hi; [lia|].
  destruct i as [|i]; [reflexivity|]. cbn. apply IH. lia.
Qed.


(** C10. When the target feature exists, a call that resolves some
    requested shape completes whatever that shape is, and the stored grid
    is the existing array with its axes of length one removed and a
    trailing axis added: its shape and its dtype are those of the
    existing array, not the requested [raster_shape] or [raster_dtype]. *)
Theorem existing_feature_fixes_shape_and_dtype t w a height width tr :
  rasters (patch w) !! (feature_type t, feature_name t) = Some a ->
  rbind (_get_shape t (patch w)) unpack2 = Ok (height, width) ->
  patch_transform (patch w) width height = Ok tr ->
  kernel_accepts t w height width tr ->
  exists w' out,
    VectorToRaster_execute t w = (Ok tt, w') /\
    rasters (patch w') !! (feature_type t, feature_name t) = Some out /\
    shape out = List.filter (fun d => negb (d =? 1)) (shape a) ++ [1] /\
    dtype out = dtype a /\
    burnt_cells t w tr (squeeze a) (data out).
Proof.
  intros Ha Hshape Htr Hacc.
  pose proof (base_grid_existing t (patch w) height width a Ha) as Hbase.
  destruct (VectorToRaster_execute_success t w height width tr _ _
              Hshape Htr Hbase Hacc) as (d & w' & Hd & Hrun & Hout).
  exists w'. eexists. split; [exact Hrun|]. split; [exact Hout|].
  cbn. auto.
Qed.

(** C9, as amended. In a call that completes, the stored grid is the base
    grid with a trailing axis of length one.  When the feature did not
    exist its shape is [(height, width, 1)] for the resolved shape; when it
    existed its shape is the squeezed shape of the existing array followed
    by 1, which is [(n, m, 1)] for an existing array of shape
    [(n, m, 1)] with [n] and [m] other than one, whatever shape was
    requested. *)
Theorem stored_grid_has_trailing_axis t w height width tr :
  rbind (_get_shape t (patch w)) unpack2 = Ok (height, width) ->
  patch_transform (patch w) width height = Ok tr ->
  kernel_accepts t w height width tr ->
  (rasters (patch w) !! (feature_type t, feature_name t) = None ->
   (0 <= height)%Z /\ (0 <= width)%Z) ->
  exists w' out,
    VectorToRaster_execute t w = (Ok tt, w') /\
    rasters (patch w') !! (feature_type t, feature_name t) = Some out /\
    last (shape out) = Some 1 /\
    match rasters (patch w) !! (feature_type t, feature_name t) with
    | None => shape out = [Z.to_nat height; Z.to_nat width; 1]
    | Some a =>
        shape out = shape (squeeze a) ++ [1] /\
        forall n m : nat, shape a = [n; m; 1] -> n <> 1 -> m <> 1 ->
                          shape out = [n; m; 1]
    end.
Proof.
  intros Hshape Htr Hacc Hdims.
  destruct (rasters (patch w) !! (feature_type t, feature_name t))
    as [a|] eqn:Ha.
  - pose proof (base_grid_existing t (patch w) height width a Ha) as Hbase.
    destruct (VectorToRaster_execute_success t w height width tr _ _
                Hshape Htr Hbase Hacc) as (d & w' & Hd & Hrun & Hout).
    exists w'. eexists. split; [exact Hrun|]. split; [exact Hout|].
    cbn [newaxis_last shape]. split; [apply last_snoc|].
    split; [reflexivity|].
    intros n m Hsh Hn Hm. unfold squeeze. cbn [shape]. rewrite Hsh.
    cbn [List.filter].
    destruct (Nat.eqb_spec n 1); [contradiction|].
    destruct (Nat.eqb_spec m 1); [contradiction|]. reflexivity.
  - destruct (Hdims eq_refl) as [Hh Hw].
    pose proof (base_grid_fresh t (patch w) height width Ha Hh Hw) as Hbase.
    destruct (VectorToRaster_execute_success t w height width tr _ _
                Hshape Htr Hbase Hacc) as (d & w' & Hd & Hrun & Hout).
    exists w'. eexists. split; [exact Hrun|]. split; [exact Hout|].
    cbn [newaxis_last shape]. split; reflexivity.
Qed.

(** *** Eager check of the feature kinds (C7) *)

Lemma kind_check_raises (features : list (FeatureType * string * string)) :
  (exists f, In f features /\ accepted_kind f = false) ->
  rfold (fun (_ : unit) f =>
           match f with
           | (ft, _, _) =>
               if negb (is_spatial ft && is_discrete ft)
               then Raise ValueError
               else Ok tt
           end) features tt = Raise ValueError.
Proof.
  induction features as [|[[ft fn] new] rest IH]; intros [f [Hin Hf]].
  - destruct Hin.
  - cbn [rfold]. destruct (is_spatial ft && is_discrete ft) eqn:Hk.
    + cbn [negb rbind]. apply IH. destruct Hin as [<-|Hin].
      * unfold accepted_kind in Hf. cbn in Hf. congruence.
      * eauto.
    + reflexivity.
Qed.

Lemma kind_check_passes (features : list (FeatureType * string * string)) :
  Forall (fun f => accepted_kind f = true) features ->
  rfold (fun (_ : unit) f =>
           match f with
           | (ft, _, _) =>
               if negb (is_spatial ft && is_discrete ft)
               then Raise ValueError
               else Ok tt
           end) features tt = Ok tt.
Proof.
  induction 1 as [|[[ft fn] new] rest Hf _ IH]; [reflexivity|].
  cbn [rfold]. unfold accepted_kind in Hf. cbn in Hf. rewrite Hf.
  exact IH.
Qed.

(** A feature list whose kinds are all spatial and discrete configures
    the task. *)
Lemma accepted_kinds_configure features vals column dt ps :
  Forall (fun f => accepted_kind f = true) features ->
  RasterToVector_init features vals column dt ps
  = Ok (mk_RasterToVector features vals column dt ps).
Proof.
  intros Hall. unfold RasterToVector_init. cbn [feature_gen].
  rewrite (kind_check_passes features Hall). reflexivity.
Qed.

(** C7. A feature list holding a kind that is not both spatial and
    discrete makes the constructor raise a ValueError; no task exists, so
    configuring and running leaves the world (the host patch included)
    untouched. *)
Theorem unsupported_kind_raises_eagerly features vals column dt ps w :
  (exists f, In f features /\ accepted_kind f = false) ->
  RasterToVector_init features vals column dt ps = Raise ValueError /\
  RasterToVector_run features vals column dt ps w = (Raise ValueError, w).
Proof.
  intros Hbad.
  assert (Hinit : RasterToVector_init features vals column dt ps
                  = Raise ValueError).
  { unfold RasterToVector_init. cbn [feature_gen].
    rewrite (kind_check_raises features Hbad). reflexivity. }
  split; [exact Hinit|].
  unfold RasterToVector_run, bind, lift. rewrite Hinit. reflexivity.
Qed.

(** *** The value filter (C1) *)

(** An empty list of values is as good as no list: no mask is built. *)
Lemma empty_filter_is_no_filter self raster :
  values self = Some [] -> build_mask self raster = None.
Proof. intros Hv. unfold build_mask. rewrite Hv. reflexivity. Qed.

Lemma empty_filter_traces_everything features column dt ps raster tr crs ts :
  _vectorize_single_raster
    (mk_RasterToVector features (Some []) column dt ps) raster tr crs ts
  = _vectorize_single_raster
      (mk_RasterToVector features None column dt ps) raster tr crs ts.
Proof. reflexivity. Qed.

Lemma lookup_map {A B} (f : A -> B) (l : list A) (i : nat) :
  map f l !! i = option_map f (l !! i).
Proof.
  revert i. induction l as [|x l IH]; intros [|i]; try reflexivity.
  apply IH.
Qed.

Lemma set_true_where_sound (m sel : ndarray bool) (k : nat) :
  data (set_true_where m sel) !! k = Some true ->
  data m !! k = Some true \/ data sel !! k = Some true.
Proof.
  unfold set_true_where. cbn [data]. rewrite lookup_zip_with.
  destruct (data m !! k) as [old|]; [|discriminate].
  destruct (data sel !! k) as [[|]|]; cbn; auto; discriminate.
Qed.

Lemma mask_fold_sound (vals : list Z) (raster : ndarray Z)
      (m0 : ndarray bool) (k : nat) :
  data (fold_left
          (fun mask value => set_true_where mask (eq_scalar raster value))
          vals m0) !! k = Some true ->
  data m0 !! k = Some true \/
  exists x, In x vals /\ data raster !! k = Some x.
Proof.
  revert m0. induction vals as [|v vals IH]; intros m0 Hk; [auto|].
  cbn [fold_left] in Hk. apply IH in Hk as [Hk|[x [Hx Hr]]].
  - apply set_true_where_sound in Hk as [Hk|Hk]; [auto|].
    right. unfold eq_scalar in Hk. cbn [data] in Hk.
    rewrite lookup_map in Hk.
    destruct (data raster !! k) as [x|] eqn:Hx; [|discriminate].
    cbn in Hk. injection Hk as Hk. apply Z.eqb_eq in Hk. subst x.
    exists v. split; [left; reflexivity | reflexivity].
  - right. exists x. split; [right; exact Hx | exact Hr].
Qed.

Lemma mask_fold_shape (vals : list Z) (raster : ndarray Z)
      (m0 : ndarray bool) :
  shape (fold_left
           (fun mask value => set_true_where mask (eq_scalar raster value))
           vals m0) = shape m0.
Proof.
  revert m0. induction vals as [|v vals IH]; intros m0; [reflexivity|].
  cbn [fold_left]. rewrite IH. reflexivity.
Qed.

(** The mask selects only cells holding a permitted value. *)
Lemma build_mask_sound self raster mask k :
  build_mask self raster = Some mask ->
  shape mask = shape raster /\
  (data mask !! k = Some true ->
   exists x, In x (default [] (values self)) /\ data raster !! k = Some x).
Proof.
  unfold build_mask. destruct (values_truthy (values self)); [|discriminate].
  intros Hm. injection Hm as <-. split.
  - rewrite mask_fold_shape. reflexivity.
  - intros Hk. apply mask_fold_sound in Hk as [Hk|Hk]; [|exact Hk].
    unfold zeros_bool in Hk. cbn [data] in Hk.
    apply list_elem_of_lookup_2, list_elem_of_In, repeat_spec in Hk.
    discriminate.
Qed.

Lemma append_found (found : list (GeoJSON * Z))
      (geo : list Geometry) (vals : list Z) :
  fold_left (fun lists gv =>
               (fst lists ++ [shape_of (fst gv)], snd lists ++ [snd gv]))
            found (geo, vals)
  = (geo ++ map (fun gv => shape_of (fst gv)) found, vals ++ map snd found).
Proof.
  revert geo vals. induction found as [|gv found IH]; intros geo vals.
  - cbn. rewrite !app_nil_r. reflexivity.
  - cbn [fold_left fst snd map]. rewrite IH, <- !app_assoc. reflexivity.
Qed.

Lemma trace_loop (chan : nat -> result (list (GeoJSON * Z)))
      (xs : list nat) (geo : list Geometry) (vals : list Z) :
  rfold (fun lists idx =>
           rbind (chan idx)
             (fun found =>
                Ok (fold_left
                      (fun lists gv =>
                         (fst lists ++ [shape_of (fst gv)],
                          snd lists ++ [snd gv]))
                      found lists)))
        xs (geo, vals)
  = rbind (rmap chan xs)
      (fun fs => Ok (geo ++ map (fun gv => shape_of (fst gv)) (concat fs),
                     vals ++ map snd (concat fs))).
Proof.
  revert geo vals. induction xs as [|x xs IH]; intros geo vals.
  - cbn. rewrite !app_nil_r. reflexivity.
  - cbn [rfold rmap]. destruct (chan x) as [found|e]; [|reflexivity].
    cbn [rbind]. rewrite append_found, IH.
    destruct (rmap chan xs) as [fs|e]; [|reflexivity].
    cbn [rbind concat]. rewrite !map_app, <- !app_assoc. reflexivity.
Qed.

(** The two lists of the loop are the geometries and the values of the
    pairs the tracer yields, channel after channel. *)
Lemma trace_channels_pairs self raster tr :
  trace_channels self raster tr
  = rbind (traced_pairs self raster tr)
      (fun fs => Ok (map (fun gv => shape_of (fst gv)) (concat fs),
                     map snd (concat fs))).
Proof.
  unfold trace_channels, traced_pairs.
  destruct (last_dim raster) as [channels|e]; [|reflexivity].
  cbn [rbind]. apply trace_loop.
Qed.

Lemma rmap_ok_in {A B} (f : A -> result B) (xs : list A) (ys : list B) :
  rmap f xs = Ok ys ->
  forall y, In y ys -> exists x, In x xs /\ f x = Ok y.
Proof.
  revert ys. induction xs as [|x xs IH]; intros ys Hm y Hy.
  - injection Hm as <-. destruct Hy.
  - cbn [rmap] in Hm. destruct (f x) as [b|e] eqn:Hb; [|discriminate].
    cbn [rbind] in Hm.
    destruct (rmap f xs) as [bs|e] eqn:Hbs; [|discriminate].
    injection Hm as <-. destruct Hy as [<-|Hy].
    + exists x. split; [left; reflexivity | exact Hb].
    + destruct (IH bs eq_refl y Hy) as [x' [Hx' Hf]].
      exists x'. split; [right; exact Hx' | exact Hf].
Qed.

Lemma take_last_lookup {A} (dflt : A) (a : ndarray A) (idx i : nat) (x : A) :
  data (take_last dflt a idx) !! i = Some x ->
  x = nth (i * default 1 (last (shape a)) + idx) (data a) dflt.
Proof.
  unfold take_last. cbn [data]. rewrite lookup_map.
  destruct (seq 0 _ !! i) as [j|] eqn:Hj; [|discriminate].
  apply lookup_seq in Hj as [-> _]. cbn. congruence.
Qed.

Lemma nth_true_lookup (l : list bool) (k : nat) :
  nth k l false = true -> l !! k = Some true.
Proof.
  rewrite nth_lookup. destruct (l !! k) as [[|]|]; cbn; congruence.
Qed.

(** X18. Filter containment for a non-empty list of values: every value
    the loop collects is a permitted value, and every cell a traced polygon
    surrounds holds the value of the polygon, a permitted value. *)
Theorem filter_containment self raster tr geo vals :
  shapes_sound ->
  values_truthy (values self) = true ->
  trace_channels self raster tr = Ok (geo, vals) ->
  (forall v, In v vals -> In v (default [] (values self))) /\
  (forall idx found polygon v i,
     channel_shapes self raster tr idx = Ok found ->
     In (polygon, v) found -> In i (footprint polygon) ->
     data raster !! (i * default 1 (last (shape raster)) + idx) = Some v /\
     In v (default [] (values self))).
Proof.
  intros Hsound Htruthy Htrace.
  assert (Hcells : forall idx found (g : GeoJSON) v i,
     channel_shapes self raster tr idx = Ok found ->
     In (g, v) found -> In i (footprint g) ->
     data raster !! (i * default 1 (last (shape raster)) + idx) = Some v /\
     In v (default [] (values self))).
  { intros idx found g v i Hchan Hgv Hi. unfold channel_shapes in Hchan.
    destruct (build_mask self raster) as [mask|] eqn:Hmask.
    2:{ unfold build_mask in Hmask. rewrite Htruthy in Hmask. discriminate. }
    cbn [option_map] in Hchan.
    destruct (Hsound _ _ _ _ _ g v Hchan Hgv) as [_ Hfoot].
    destruct (Hfoot i Hi) as [Himg Hsel].
    specialize (Hsel _ eq_refl).
    apply take_last_lookup in Himg, Hsel.
    destruct (build_mask_sound self raster mask
                (i * default 1 (last (shape raster)) + idx) Hmask)
      as [Hshape Hmk].
    rewrite Hshape in Hsel. symmetry in Hsel.
    apply nth_true_lookup, Hmk in Hsel as [x [Hx Hr]].
    rewrite (nth_lookup_Some _ _ 0%Z x Hr) in Himg. subst x. auto. }
  split; [|exact Hcells].
  intros v Hv. rewrite trace_channels_pairs in Htrace.
  destruct (traced_pairs self raster tr) as [fs|e] eqn:Hfs; [|discriminate].
  cbn [rbind] in Htrace. injection Htrace as <- <-.
  apply in_map_iff in Hv as [[g v'] [<- Hgv]]. cbn [snd].
  apply in_concat in Hgv as [found [Hfound Hgv]].
  unfold traced_pairs in Hfs.
  destruct (last_dim raster) as [channels|e]; [|discriminate].
  cbn [rbind] in Hfs.
  destruct (rmap_ok_in _ _ _ Hfs found Hfound) as [idx [_ Hchan]].
  pose proof Hchan as Hchan'. unfold channel_shapes in Hchan'.
  destruct (Hsound _ _ _ _ _ g v' Hchan' Hgv) as [Hne _].
  destruct (footprint g) as [|i rest] eqn:Hfp; [congruence|].
  apply (Hcells idx found g v' i Hchan Hgv). rewrite Hfp. left. reflexivity.
Qed.

(** *** Tables of one slice *)

(** The table of one slice: its rows, its CRS and its columns. *)
Lemma vectorize_table self raster tr crs ts g :
  _vectorize_single_raster self raster tr crs ts = Ok g ->
  exists geo vals,
    trace_channels self raster tr = Ok (geo, vals) /\
    length vals = length geo /\
    nrows g = length geo /\
    crs_init g = ("epsg:" ++ crs_value crs)%string /\
    columns g
    = (match ts with
       | Some stamp =>
           <[TIMESTAMP_value := repeat (CTime stamp) (length geo)]>
       | None => fun m => m
       end)
        ((match value_column_name self with
          | Some name => <[name := map CValue vals]>
          | None => fun m => m
          end)
           {[ "geometry"%string := map CGeom geo ]}).
Proof.
  unfold _vectorize_single_raster. intros Hg.
  pose proof (trace_channels_pairs self raster tr) as Hpairs.
  destruct (trace_channels self raster tr) as [[geo vals]|e] eqn:Htrace;
    [|discriminate].
  cbn [rbind] in Hg. injection Hg as <-. exists geo, vals.
  split; [reflexivity|]. split.
  - destruct (traced_pairs self raster tr) as [fs|e]; [|discriminate].
    cbn [rbind] in Hpairs. injection Hpairs as -> ->.
    rewrite !length_map. reflexivity.
  - cbn [nrows crs_init columns]. split; [reflexivity|].
    split; [reflexivity|].
    destruct ts, (value_column_name self); reflexivity.
Qed.


Lemma table_timestamp_column self raster tr crs (stamp : Z) g :
  _vectorize_single_raster self raster tr crs (Some stamp) = Ok g ->
  columns g !! TIMESTAMP_value = Some (repeat (CTime stamp) (nrows g)).
Proof.
  intros Hg.
  apply vectorize_table in Hg as (geo & vals & _ & _ & Hn & _ & Hcols).
  rewrite Hcols, Hn. apply lookup_insert_eq.
Qed.

(** Which columns a table has depends on the configuration and on
    whether a timestamp was given, not on the slice. *)
Lemma table_has_column self raster tr crs ts g name :
  _vectorize_single_raster self raster tr crs ts = Ok g ->
  is_Some (columns g !! name) <->
  name = "geometry"%string \/ value_column_name self = Some name \/
  (name = TIMESTAMP_value /\ is_Some ts).
Proof.
  intros Hg.
  apply vectorize_table in Hg as (geo & vals & _ & _ & _ & _ & Hcols).
  rewrite Hcols. clear Hcols.
  destruct ts as [stamp|], (value_column_name self) as [vn|];
    rewrite ?lookup_insert_is_Some', ?lookup_singleton_is_Some;
    split; intros Hn;
    repeat match goal with
           | H : _ \/ _ |- _ => destruct H
           | H : _ /\ _ |- _ => destruct H
           | H : is_Some None |- _ => destruct H; discriminate
           | H : Some _ = Some _ |- _ => injection H as H
           | H : None = Some _ |- _ => discriminate H
           end; subst; eauto 6.
Qed.

(** *** Concatenation of tables *)

Lemma concat_step_lookup (acc : gmap string (list (@Cell Geometry)) * nat)
      g (name : string) :
  (is_Some (columns g !! name) <-> is_Some (fst acc !! name)) ->
  fst (concat_step acc g) !! name
  = option_map (fun x => x ++ column name g) (fst acc !! name).
Proof.
  intros Hsame. unfold concat_step, column. cbn [fst].
  rewrite lookup_merge.
  destruct (fst acc !! name) as [x|], (columns g !! name) as [y|];
    try reflexivity.
  - destruct Hsame as [_ Hs]. destruct Hs as [y Hy]; [eauto|discriminate].
  - destruct Hsame as [Hs _]. destruct Hs as [x Hx]; [eauto|discriminate].
Qed.

Lemma concat_fold_lookup (rest : list (@GeoDataFrame Geometry))
      (acc : gmap string (list (@Cell Geometry)) * nat) (name : string) :
  (forall g, In g rest ->
     (is_Some (columns g !! name) <-> is_Some (fst acc !! name))) ->
  fst (fold_left concat_step rest acc) !! name
  = option_map (fun x => x ++ concat (map (column name) rest))
               (fst acc !! name).
Proof.
  revert acc. induction rest as [|g rest IH]; intros acc Hsame.
  - cbn. destruct (fst acc !! name); cbn; [rewrite app_nil_r|]; reflexivity.
  - cbn [fold_left map concat].
    assert (Hg : is_Some (columns g !! name) <-> is_Some (fst acc !! name))
      by (apply Hsame; left; reflexivity).
    rewrite IH.
    + rewrite (concat_step_lookup acc g name Hg).
      destruct (fst acc !! name); cbn; [rewrite app_assoc|]; reflexivity.
    + intros g' Hg'. rewrite (concat_step_lookup acc g name Hg).
      rewrite (Hsame g' (or_intror Hg')).
      destruct (fst acc !! name); cbn; split; intros [z Hz]; eauto;
        discriminate.
Qed.

Lemma concat_fold_rows (rest : list (@GeoDataFrame Geometry))
      (acc : gmap string (list (@Cell Geometry)) * nat) :
  snd (fold_left concat_step rest acc) = snd acc + list_sum (map nrows rest).
Proof.
  revert acc. induction rest as [|g rest IH]; intros acc.
  - cbn. lia.
  - cbn [fold_left]. rewrite IH. unfold concat_step. simpl. lia.
Qed.

(** [compose] never raises on a non-empty list: it compares no CRS and
    gives the result the CRS of the first table. *)
Lemma compose_nonempty g tables :
  compose (g :: tables)
  = Ok (mk_GeoDataFrame
          (fst (fold_left concat_step tables (columns g, nrows g)))
          (snd (fold_left concat_step tables (columns g, nrows g)))
          (crs_init g)).
Proof. reflexivity. Qed.

Lemma compose_empty :
  compose ([] : list (@GeoDataFrame Geometry)) = Raise ValueError.
Proof. reflexivity. Qed.

(** Tables with the same columns are concatenated column by column, in
    the order of the list and keeping the order of the rows of each. *)
Lemma compose_columns g tables :
  (forall g' name, In g' tables ->
     (is_Some (columns g' !! name) <-> is_Some (columns g !! name))) ->
  exists table,
    compose (g :: tables) = Ok table /\
    crs_init table = crs_init g /\
    nrows table = list_sum (map nrows (g :: tables)) /\
    forall name,
      columns table !! name
      = option_map (fun _ => concat (map (column name) (g :: tables)))
                   (columns g !! name).
Proof.
  intros Hsame. eexists. split; [apply compose_nonempty|].
  cbn [crs_init nrows columns]. split; [reflexivity|]. split.
  - rewrite concat_fold_rows. reflexivity.
  - intros name. rewrite concat_fold_lookup.
    + cbn [fst map concat]. unfold column at 2.
      destruct (columns g !! name); reflexivity.
    + intros g' Hg'. cbn [fst]. apply Hsame, Hg'.
Qed.

(** *** The tables of the time slices *)

Lemma rmap_seq_ok {B} (f : nat -> result B) (ys : list B) (s : nat) :
  (forall i y, ys !! i = Some y -> f (s + i) = Ok y) ->
  rmap f (seq s (length ys)) = Ok ys.
Proof.
  revert s. induction ys as [|y ys IH]; intros s Hf; [reflexivity|].
  cbn [length seq rmap].
  rewrite <- (Nat.add_0_r s) at 1. rewrite (Hf 0 y eq_refl). cbn [rbind].
  rewrite IH; [reflexivity|].
  intros i y' Hy'. replace (S s + i) with (s + S i) by lia.
  apply Hf. exact Hy'.
Qed.

(** Blocks of equal stamps laid end to end in the order of a sorted list
    of stamps are sorted. *)
Lemma stamped_blocks_sorted (stamps : list Z) (sizes : list nat) :
  StronglySorted Z.le stamps ->
  StronglySorted Z.le
    (concat (zip_with (fun stamp n => repeat stamp n) stamps sizes)) /\
  forall x, In x (concat (zip_with (fun stamp n => repeat stamp n)
                                   stamps sizes)) -> In x stamps.
Proof.
  revert sizes. induction stamps as [|stamp stamps IH]; intros sizes Hs.
  - cbn. split; [constructor | tauto].
  - destruct sizes as [|n sizes]; [cbn; split; [constructor | tauto]|].
    cbn [zip_with concat]. inversion Hs as [|? ? Hrest Hall]; subst.
    destruct (IH sizes Hrest) as [IHs IHin]. split.
    + induction n as [|n IHn]; [exact IHs|].
      cbn [repeat app]. constructor; [exact IHn|].
      apply List.Forall_forall. intros x Hx.
      apply in_app_or in Hx as [Hx|Hx].
      * apply repeat_spec in Hx. subst x. lia.
      * rewrite List.Forall_forall in Hall. apply Hall, IHin, Hx.
    + intros x Hx. apply in_app_or in Hx as [Hx|Hx].
      * apply repeat_spec in Hx. left. congruence.
      * right. apply IHin, Hx.
Qed.

Lemma column_times_stamped (stamps : list Z) tables :
  column_times
    (concat (zip_with (fun stamp g => repeat (@CTime Geometry stamp) (nrows g))
                      stamps tables))
  = concat (zip_with (fun stamp n => repeat stamp n) stamps
                     (map nrows tables)).
Proof.
  revert tables. induction stamps as [|stamp stamps IH]; intros tables;
    [reflexivity|].
  destruct tables as [|g tables]; [reflexivity|].
  cbn [zip_with concat map]. unfold column_times in *.
  rewrite omap_app, IH. f_equal.
  induction (nrows g) as [|n IHn]; [reflexivity|].
  cbn. rewrite IHn. reflexivity.
Qed.

(** The body of the loop of [RasterToVector.execute], once the feature is
    found, its spatial shape unpacked and the transform built. *)
Lemma vectorize_feature_run self raster_ft raster_fn vector_fn w a
      height width tr :
  rasters (patch w) !! (raster_ft, raster_fn) = Some a ->
  unpack2 (if is_timeless raster_ft then slice_shape 0 2 (shape a)
           else slice_shape 1 3 (shape a)) = Ok (height, width) ->
  patch_transform (patch w) width height = Ok tr ->
  vectorize_feature self (raster_ft, raster_fn, vector_fn) w
  = if is_timeless raster_ft then
      match _vectorize_single_raster self (cast_raster self a) tr
                                     (get_crs (bbox (patch w))) None with
      | Ok table => set_vector VECTOR_TIMELESS vector_fn table w
      | Raise e => (Raise e, w)
      end
    else
      match rbind (slice_tables self (timestamp (patch w))
                                (cast_raster self a) tr
                                (get_crs (bbox (patch w))))
                  compose with
      | Ok table => set_vector VECTOR vector_fn table w
      | Raise e => (Raise e, w)
      end.
Proof.
  intros Ha Hshape Htr.
  unfold vectorize_feature, bind, get_patch, lift, parse_feature_in,
    get_raster.
  rewrite Ha, Hshape. unfold patch_transform in Htr. rewrite Htr.
  fold (cast_raster self a).
  destruct (is_timeless raster_ft).
  - destruct (_vectorize_single_raster _ _ _ _ None); reflexivity.
  - destruct (slice_tables _ _ _ _ _) as [tables|e]; [|reflexivity].
    cbn [rbind]. destruct (compose tables); reflexivity.
Qed.

Lemma surjective_pairing_ok {A S} (r : result A * S) (a : A) :
  fst r = Ok a -> r = (Ok a, snd r).
Proof. destruct r as [x y]. cbn. intros ->. reflexivity. Qed.

Lemma set_vector_lookup ft fn table w :
  fst (set_vector ft fn table w) = Ok tt /\
  vectors (patch (snd (set_vector ft fn table w))) !! (ft, fn) = Some table.
Proof.
  unfold set_vector. cbn. split; [reflexivity | apply lookup_insert_eq].
Qed.

(** When every slice has a timestamp and its vectorization yields a
    table, the list comprehension of lines 207-209 yields these tables in
    the order of the time indices. *)
Lemma slice_tables_ok self (stamps : list Z) raster tr crs tables :
  length tables = default 0 (head (shape raster)) ->
  (forall i g, tables !! i = Some g ->
     exists stamp,
       stamps !! i = Some stamp /\
       _vectorize_single_raster self (take_first raster i) tr crs
                                (Some stamp) = Ok g) ->
  slice_tables self stamps raster tr crs = Ok tables.
Proof.
  intros Hlen Hslices. unfold slice_tables. rewrite <- Hlen.
  apply rmap_seq_ok. intros i g Hg. cbn [Nat.add].
  destruct (Hslices i g Hg) as [stamp [Hs Hv]].
  unfold index. rewrite Hs. exact Hv.
Qed.

Lemma stamped_columns self (stamps : list Z) raster tr crs tables :
  (forall i g, tables !! i = Some g ->
     exists stamp,
       stamps !! i = Some stamp /\
       _vectorize_single_raster self (take_first raster i) tr crs
                                (Some stamp) = Ok g) ->
  map (column TIMESTAMP_value) tables
  = zip_with (fun stamp g => repeat (CTime stamp) (nrows g)) stamps tables.
Proof.
  intros Hslices. apply list_eq. intros i.
  rewrite lookup_map, lookup_zip_with.
  destruct (tables !! i) as [g|] eqn:Hg.
  - destruct (Hslices i g Hg) as [stamp [Hs Hv]]. rewrite Hs. cbn.
    unfold column. rewrite (table_timestamp_column _ _ _ _ _ _ Hv).
    reflexivity.
  - cbn. destruct (stamps !! i); reflexivity.
Qed.

(** X19. A time-varying feature without any time slice makes [execute]
    raise a ValueError: there is nothing to concatenate.  The world is left
    as it was. *)
Lemma no_time_slice_raises self raster_ft raster_fn vector_fn w a
      height width tr :
  is_timeless raster_ft = false ->
  rasters (patch w) !! (raster_ft, raster_fn) = Some a ->
  unpack2 (slice_shape 1 3 (shape a)) = Ok (height, width) ->
  patch_transform (patch w) width height = Ok tr ->
  head (shape (cast_raster self a)) = Some 0 ->
  vectorize_feature self (raster_ft, raster_fn, vector_fn) w
  = (Raise ValueError, w).
Proof.
  intros Htime Ha Hshape Htr Hzero.
  pose proof (vectorize_feature_run self raster_ft raster_fn vector_fn w a
                height width tr Ha) as Hrun.
  rewrite Htime in Hrun. rewrite (Hrun Hshape Htr).
  unfold slice_tables. rewrite Hzero. reflexivity.
Qed.

(** *** CRS of the tables of the slices *)



(** *** Order of the time slices (C4) *)

(** C4, as amended. For a time-varying feature whose slices all have a
    timestamp and a table, [execute] stores the concatenation of the
    tables of the slices in the order of the time indices: every column
    is the concatenation of the columns of the slices, rows in their
    order, the timestamp column repeats for each slice its own timestamp,
    and that column is non-decreasing when the timestamps of the patch
    are.  For a timeless feature the table of the single call, made
    without timestamp, is stored as it is. *)
Theorem time_slices_composed_in_order self w raster_ft raster_fn vector_fn
        a height width tr :
  rasters (patch w) !! (raster_ft, raster_fn) = Some a ->
  unpack2 (if is_timeless raster_ft then slice_shape 0 2 (shape a)
           else slice_shape 1 3 (shape a)) = Ok (height, width) ->
  patch_transform (patch w) width height = Ok tr ->
  let raster := cast_raster self a in
  let crs := get_crs (bbox (patch w)) in
  let stamps := timestamp (patch w) in
  (is_timeless raster_ft = false ->
   forall tables,
     0 < length tables ->
     length tables = default 0 (head (shape raster)) ->
     (forall i g, tables !! i = Some g ->
        exists stamp,
          stamps !! i = Some stamp /\
          _vectorize_single_raster self (take_first raster i) tr crs
                                   (Some stamp) = Ok g) ->
     exists table w',
       vectorize_feature self (raster_ft, raster_fn, vector_fn) w
       = (Ok tt, w') /\
       vectors (patch w') !! (VECTOR, vector_fn) = Some table /\
       nrows table = list_sum (map nrows tables) /\
       (forall name first,
          head tables = Some first ->
          columns table !! name
          = option_map (fun _ => concat (map (column name) tables))
                       (columns first !! name)) /\
       columns table !! TIMESTAMP_value
       = Some (concat (zip_with
                         (fun stamp g => repeat (CTime stamp) (nrows g))
                         stamps tables)) /\
       (Sorted Z.le stamps ->
        Sorted Z.le (column_times (column TIMESTAMP_value table)))) /\
  (is_timeless raster_ft = true ->
   forall table,
     _vectorize_single_raster self raster tr crs None = Ok table ->
     exists w',
       vectorize_feature self (raster_ft, raster_fn, vector_fn) w
       = (Ok tt, w') /\
       vectors (patch w') !! (VECTOR_TIMELESS, vector_fn) = Some table /\
       (value_column_name self <> Some TIMESTAMP_value ->
        columns table !! TIMESTAMP_value = None)).
Proof.
  intros Ha Hshape Htr raster crs stamps.
  pose proof (vectorize_feature_run self raster_ft raster_fn vector_fn w a
                height width tr Ha Hshape Htr) as Hrun.
  fold raster crs stamps in Hrun. split.
  - intros Htime tables Hpos Hlen Hslices. rewrite Htime in Hrun.
    rewrite (slice_tables_ok self stamps raster tr crs tables Hlen Hslices)
      in Hrun.
    cbn [rbind] in Hrun.
    destruct tables as [|g0 rest] eqn:Htables; [cbn in Hpos; lia|].
    assert (Hcols : forall g name, In g (g0 :: rest) ->
              (is_Some (columns g !! name) <->
               name = "geometry"%string \/
               value_column_name self = Some name \/
               name = TIMESTAMP_value)).
    { intros g name Hg.
      apply list_elem_of_In, list_elem_of_lookup_1 in Hg as [i Hi].
      destruct (Hslices i g Hi) as [stamp [_ Hv]].
      rewrite (table_has_column _ _ _ _ _ _ name Hv).
      split.
      + intros [Hn|[Hn|[Hn _]]]; auto.
      + intros [Hn|[Hn|Hn]]; [auto | auto |].
        right. right. split; [exact Hn | eauto]. }
    destruct (compose_columns g0 rest) as (table & Hc & _ & Hn & Hcol).
    { intros g' name Hg'.
      rewrite (Hcols g' name (or_intror Hg')).
      rewrite (Hcols g0 name (or_introl eq_refl)). reflexivity. }
    rewrite Hc in Hrun.
    assert (Hts : columns table !! TIMESTAMP_value
                  = Some (concat (zip_with
                            (fun stamp g => repeat (CTime stamp) (nrows g))
                            stamps (g0 :: rest)))).
    { rewrite Hcol.
      destruct (proj2 (Hcols g0 TIMESTAMP_value (or_introl eq_refl)))
        as [c0 Hc0]; [auto|].
      rewrite Hc0. cbn [option_map].
      rewrite (stamped_columns self stamps raster tr crs (g0 :: rest)
                 Hslices).
      reflexivity. }
    exists table, (snd (set_vector VECTOR vector_fn table w)).
    destruct (set_vector_lookup VECTOR vector_fn table w) as [Hfst Hlook].
    split; [rewrite Hrun; apply surjective_pairing_ok; exact Hfst|].
    split; [exact Hlook|]. split; [exact Hn|]. split; [|split].
    + intros name first Hfirst. injection Hfirst as <-. apply Hcol.
    + exact Hts.
    + intros Hsorted. unfold column. rewrite Hts. cbn [from_option id].
      rewrite column_times_stamped.
      apply StronglySorted_Sorted, stamped_blocks_sorted.
      apply Sorted_StronglySorted; [|exact Hsorted].
      intros x y z. apply Z.le_trans.
  - intros Htimeless table Htable. rewrite Htimeless, Htable in Hrun.
    exists (snd (set_vector VECTOR_TIMELESS vector_fn table w)).
    destruct (set_vector_lookup VECTOR_TIMELESS vector_fn table w)
      as [Hfst Hlook].
    split; [rewrite Hrun; apply surjective_pairing_ok; exact Hfst|].
    split; [exact Hlook|].
    intros Hname.
    destruct (columns table !! TIMESTAMP_value) as [c|] eqn:Hc;
      [|reflexivity].
    assert (Hsome : is_Some (columns table !! TIMESTAMP_value)) by eauto.
    apply (table_has_column _ _ _ _ _ _ TIMESTAMP_value Htable) in Hsome
      as [Hg|[Hv|[_ [x Hx]]]]; [discriminate|contradiction|discriminate].
Qed.

End Properties.

(** ** Further properties of the two tasks *)

Section MoreProperties.

Context {Geometry GeoJSON Attrs : Type}.
Context `{!NumpyOps} `{!Shapely Geometry GeoJSON}
        `{!Rasterio Geometry GeoJSON}.

Implicit Types (w : @World Geometry Attrs) (p : @EOPatch Geometry).
Implicit Types (t : VectorToRaster) (self : RasterToVector).
Implicit Types (g table : @GeoDataFrame Geometry).
Implicit Types (tables : list (@GeoDataFrame Geometry)).

(** *** What [VectorToRaster.execute] leaves alone *)

Lemma VectorToRaster_execute_keeps_rest t w :
  let w' := snd (VectorToRaster_execute t w) in
  bbox (patch w') = bbox (patch w) /\
  timestamp (patch w') = timestamp (patch w) /\
  vectors (patch w') = vectors (patch w) /\
  (forall key, key <> (feature_type t, feature_name t) ->
     rasters (patch w') !! key = rasters (patch w) !! key).
Proof.
  rewrite VectorToRaster_execute_run. cbn zeta.
  destruct (rbind (_get_shape t (patch w)) unpack2) as [[height width]|e];
    [|cbn; auto].
  destruct (patch_transform (patch w) width height) as [tr|e];
    [|cbn; auto].
  destruct (base_grid t (patch w) height width) as [[raster shared]|e];
    [|cbn; auto].
  destruct (frame_empty (submap_rows t w)).
  - cbn. repeat split; auto.
    intros key Hkey. apply lookup_insert_ne. congruence.
  - destruct (rasterize _ raster tr _ _) as [d|e]; [|cbn; auto].
    destruct shared; cbn; repeat split; auto; intros key Hkey.
    + rewrite lookup_insert_ne by congruence.
      apply lookup_alter_ne. congruence.
    + apply lookup_insert_ne. congruence.
Qed.

Lemma VectorToRaster_execute_frames t w :
  frames (snd (VectorToRaster_execute t w)) = frames (submap_world t w).
Proof.
  rewrite VectorToRaster_execute_run. cbn zeta.
  destruct (rbind (_get_shape t (patch w)) unpack2) as [[height width]|e];
    [|reflexivity].
  destruct (patch_transform (patch w) width height) as [tr|e];
    [|reflexivity].
  destruct (base_grid t (patch w) height width) as [[raster shared]|e];
    [|reflexivity].
  destruct (frame_empty (submap_rows t w)); [reflexivity|].
  destruct (rasterize _ raster tr _ _) as [d|e]; [|reflexivity].
  destruct shared; reflexivity.
Qed.

Lemma VectorToRaster_execute_keeps_frames t w (l : nat)
      (fr : VectorFrame (Geometry := Geometry) (Attrs := Attrs)) :
  frames w !! l = Some fr ->
  frames (snd (VectorToRaster_execute t w)) !! l = Some fr.
Proof.
  intros Hfr. rewrite VectorToRaster_execute_frames.
  unfold submap_world. cbn [frames]. apply lookup_old, Hfr.
Qed.

(** X1. Whatever its outcome, [VectorToRaster.execute] leaves the
    bounding box, the timestamps and the vector features of the patch as
    they were, adds or removes no raster feature other than the target and
    leaves the shape and the dtype of every other raster feature as they
    were; every frame that existed, the vector data of the task among
    them, is unchanged.  (Nothing is said of the cells of the other raster
    features: one that shares its buffer with the target sees the burn.) *)
Theorem VectorToRaster_execute_touches_only_target t w :
  let w' := snd (VectorToRaster_execute t w) in
  bbox (patch w') = bbox (patch w) /\
  timestamp (patch w') = timestamp (patch w) /\
  vectors (patch w') = vectors (patch w) /\
  (forall key, key <> (feature_type t, feature_name t) ->
     shape <$> rasters (patch w') !! key
     = shape <$> rasters (patch w) !! key /\
     dtype <$> rasters (patch w') !! key
     = dtype <$> rasters (patch w) !! key) /\
  (forall l fr, frames w !! l = Some fr -> frames w' !! l = Some fr).
Proof.
  intros w'.
  destruct (VectorToRaster_execute_keeps_rest t w)
    as (Hbox & Hstamps & Hvectors & Hrasters).
  split; [exact Hbox|]. split; [exact Hstamps|].
  split; [exact Hvectors|]. split.
  - intros key Hkey. unfold w'. rewrite (Hrasters key Hkey).
    split; reflexivity.
  - intros l fr Hfr. unfold w'.
    apply VectorToRaster_execute_keeps_frames, Hfr.
Qed.

(** X2. A call of [VectorToRaster.execute] that raises, whatever the
    exception, leaves the host patch exactly as it was. *)
Theorem VectorToRaster_execute_raise_keeps_patch t w e :
  fst (VectorToRaster_execute t w) = Raise e ->
  patch (snd (VectorToRaster_execute t w)) = patch w.
Proof.
  rewrite VectorToRaster_execute_run. cbn zeta.
  destruct (rbind (_get_shape t (patch w)) unpack2) as [[height width]|e1];
    [|reflexivity].
  destruct (patch_transform (patch w) width height) as [tr|e1];
    [|reflexivity].
  destruct (base_grid t (patch w) height width) as [[raster shared]|e1];
    [|reflexivity].
  destruct (frame_empty (submap_rows t w)); [discriminate|].
  destruct (rasterize _ raster tr _ _) as [d|e1]; [|reflexivity].
  destruct shared; discriminate.
Qed.

(** *** Calls that burn nothing *)

Lemma empty_clip_run t w height width tr base shared :
  Forall (fun r => intersects (geometry r) (get_geometry (bbox (patch w)))
                   = false) (input_frame t w) ->
  rbind (_get_shape t (patch w)) unpack2 = Ok (height, width) ->
  patch_transform (patch w) width height = Ok tr ->
  base_grid t (patch w) height width = Ok (base, shared) ->
  VectorToRaster_execute t w
  = set_raster (feature_type t) (feature_name t) (newaxis_last base)
               (submap_world t w).
Proof.
  intros Hfar Hshape Htr Hbase.
  rewrite VectorToRaster_execute_run. cbn zeta.
  rewrite Hshape, Htr, Hbase, (no_intersection_empty_clip t w Hfar).
  reflexivity.
Qed.

(** X3. Squeezing and adding the trailing axis back is a round trip on
    an array of shape [(n, m, 1)] with [n] and [m] other than one: when
    the target feature is such an array and no geometry intersects the
    window, a call that resolves its shape completes and leaves the whole
    patch as it was. *)
Theorem empty_clip_is_identity t w a (n m : nat) height width tr :
  rasters (patch w) !! (feature_type t, feature_name t) = Some a ->
  shape a = [n; m; 1] -> n <> 1 -> m <> 1 ->
  Forall (fun r => intersects (geometry r) (get_geometry (bbox (patch w)))
                   = false) (input_frame t w) ->
  rbind (_get_shape t (patch w)) unpack2 = Ok (height, width) ->
  patch_transform (patch w) width height = Ok tr ->
  fst (VectorToRaster_execute t w) = Ok tt /\
  patch (snd (VectorToRaster_execute t w)) = patch w.
Proof.
  intros Ha Hsh Hn Hm Hfar Hshape Htr.
  rewrite (empty_clip_run t w height width tr _ _ Hfar Hshape Htr
             (base_grid_existing t (patch w) height width a Ha)).
  assert (Hround : newaxis_last (squeeze a) = a).
  { destruct a as [sh dt d]. cbn in Hsh. subst sh.
    unfold newaxis_last, squeeze. cbn [shape dtype data List.filter].
    destruct (Nat.eqb_spec n 1); [contradiction|].
    destruct (Nat.eqb_spec m 1); [contradiction|]. reflexivity. }
  rewrite Hround. unfold set_raster. cbn [fst snd patch submap_world].
  split; [reflexivity|].
  rewrite (insert_id _ _ _ Ha). destruct (patch w); reflexivity.
Qed.

(** X4. [squeeze()] removes every axis of length one, spatial axes
    included: when the target feature has shape [(1, m, 1)] with [m] other
    than one and no geometry intersects the window, the feature is stored
    back with shape [(m, 1)], its cells unchanged. *)
Theorem single_row_grid_loses_an_axis t w a (m : nat) height width tr :
  rasters (patch w) !! (feature_type t, feature_name t) = Some a ->
  shape a = [1; m; 1] -> m <> 1 ->
  Forall (fun r => intersects (geometry r) (get_geometry (bbox (patch w)))
                   = false) (input_frame t w) ->
  rbind (_get_shape t (patch w)) unpack2 = Ok (height, width) ->
  patch_transform (patch w) width height = Ok tr ->
  fst (VectorToRaster_execute t w) = Ok tt /\
  rasters (patch (snd (VectorToRaster_execute t w)))
    !! (feature_type t, feature_name t)
  = Some (mk_ndarray [m; 1] (dtype a) (data a)).
Proof.
  intros Ha Hsh Hm Hfar Hshape Htr.
  rewrite (empty_clip_run t w height width tr _ _ Hfar Hshape Htr
             (base_grid_existing t (patch w) height width a Ha)).
  unfold set_raster. cbn [fst snd patch rasters].
  split; [reflexivity|]. rewrite lookup_insert_eq.
  unfold newaxis_last, squeeze. cbn [shape dtype data]. rewrite Hsh.
  cbn [List.filter Nat.eqb negb].
  destruct (Nat.eqb_spec m 1); [contradiction|]. reflexivity.
Qed.



(** *** The mask of the permitted values *)

Lemma mask_fold_exact (vals : list Z) (raster : ndarray Z)
      (m0 : ndarray bool) (k : nat) (x : Z) (b0 : bool) :
  data raster !! k = Some x ->
  data m0 !! k = Some b0 ->
  data (fold_left
          (fun mask value => set_true_where mask (eq_scalar raster value))
          vals m0) !! k
  = Some (b0 || existsb (Z.eqb x) vals).
Proof.
  intros Hx. revert m0 b0. induction vals as [|v vals IH]; intros m0 b0 Hb.
  - cbn. rewrite orb_false_r. exact Hb.
  - cbn [fold_left existsb].
    rewrite (IH _ (if (x =? v)%Z then true else b0)).
    + destruct (x =? v)%Z, b0; reflexivity.
    + unfold set_true_where, eq_scalar. cbn [data].
      rewrite lookup_zip_with, Hb, lookup_map, Hx. reflexivity.
Qed.

(** X6. For a non-empty list of values and a raster with as many cells
    as its shape tells, the mask has the shape of the raster and marks a
    cell exactly when the value of the cell is in the list. *)
Theorem mask_marks_exactly_permitted self raster mask (k : nat) (x : Z) :
  build_mask self raster = Some mask ->
  length (data raster) = size_of (shape raster) ->
  data raster !! k = Some x ->
  shape mask = shape raster /\
  exists b, data mask !! k = Some b /\
            (b = true <-> In x (default [] (values self))).
Proof.
  unfold build_mask. destruct (values_truthy (values self)); [|discriminate].
  intros Hm Hlen Hx. injection Hm as <-. split.
  - rewrite mask_fold_shape. reflexivity.
  - exists (existsb (Z.eqb x) (default [] (values self))). split.
    + rewrite (mask_fold_exact _ raster _ k x false Hx); [reflexivity|].
      unfold zeros_bool. cbn [data]. apply lookup_repeat_lt.
      rewrite <- Hlen. apply lookup_lt_Some in Hx. exact Hx.
    + rewrite existsb_exists. split.
      * intros [y [Hy Heq]]. apply Z.eqb_eq in Heq. subst y. exact Hy.
      * intros Hin. exists x. split; [exact Hin | apply Z.eqb_refl].
Qed.

(** *** The table of one slice *)

Lemma singleton_column_lookup {A} (key name : string) (x col : A) :
  ({[ key := x ]} : gmap string A) !! name = Some col -> col = x.
Proof. intros Hl. apply lookup_singleton_Some in Hl as [_ <-]. reflexivity. Qed.

Lemma single_table_well_formed self raster tr crs ts g :
  _vectorize_single_raster self raster tr crs ts = Ok g -> well_formed g.
Proof.
  intros Hg.
  apply vectorize_table in Hg as (geo & vals & _ & Hlen & Hn & _ & Hcols).
  intros name col Hcol. rewrite Hcols in Hcol. rewrite Hn. clear Hcols Hn.
  destruct ts as [stamp|], (value_column_name self) as [vn|];
    repeat match type of Hcol with
           | <[_ := _]> _ !! _ = Some _ =>
               apply lookup_insert_Some in Hcol as [[_ <-]|[_ Hcol]]
           end;
    try apply singleton_column_lookup in Hcol; subst;
    rewrite ?repeat_length, ?length_map; auto.
Qed.

(** X7. The table [_vectorize_single_raster] returns has the geometry
    column, the value column when a name is configured and the timestamp
    column when a timestamp is given, no other column, and every column
    has exactly one cell per row. *)
Theorem single_table_schema self raster tr crs ts g :
  _vectorize_single_raster self raster tr crs ts = Ok g ->
  well_formed g /\
  forall name,
    is_Some (columns g !! name) <->
    name = "geometry"%string \/ value_column_name self = Some name \/
    (name = TIMESTAMP_value /\ is_Some ts).
Proof.
  intros Hg. split.
  - apply (single_table_well_formed _ _ _ _ _ _ Hg).
  - intros name. apply (table_has_column _ _ _ _ _ _ _ Hg).
Qed.

Lemma rmap_seq_raise {B} (f : nat -> result B) (n k s : nat) (e : exn) :
  k < n ->
  (forall i, i < k -> exists y, f (s + i) = Ok y) ->
  f (s + k) = Raise e ->
  rmap f (seq s n) = Raise e.
Proof.
  revert k s. induction n as [|n IH]; intros k s Hk Hbefore Hfail; [lia|].
  cbn [seq rmap]. destruct k as [|k].
  - rewrite Nat.add_0_r in Hfail. rewrite Hfail. reflexivity.
  - destruct (Hbefore 0) as [y Hy]; [lia|].
    rewrite Nat.add_0_r in Hy. rewrite Hy. cbn [rbind].
    rewrite (IH k (S s)); [reflexivity | lia | |].
    + intros i Hi. replace (S s + i) with (s + S i) by lia.
      apply Hbefore. lia.
    + replace (S s + k) with (s + S k) by lia. exact Hfail.
Qed.

(** X8. The channels are traced in ascending order and their polygons
    laid end to end: when the tracer yields [found] for each channel, the
    table has one row per yielded pair, the geometry column holds their
    polygons and the value column their values, channel after channel, in
    the order the tracer yields them. *)
Theorem channels_concatenated_in_order self raster tr crs ts (c : nat)
        (founds : list (list (GeoJSON * Z))) :
  last_dim raster = Ok c ->
  length founds = c ->
  (forall idx found, founds !! idx = Some found ->
     channel_shapes self raster tr idx = Ok found) ->
  exists g,
    _vectorize_single_raster self raster tr crs ts = Ok g /\
    nrows g = length (concat founds) /\
    (value_column_name self <> Some "geometry"%string ->
     columns g !! "geometry"%string
     = Some (map (fun gv => CGeom (shape_of (fst gv))) (concat founds))) /\
    (forall name,
       value_column_name self = Some name ->
       name <> TIMESTAMP_value \/ ts = None ->
       columns g !! name
       = Some (map (fun gv => CValue (snd gv)) (concat founds))).
Proof.
  intros Hc Hlen Hfound.
  assert (Htrace : trace_channels self raster tr
                   = Ok (map (fun gv => shape_of (fst gv)) (concat founds),
                         map snd (concat founds))).
  { rewrite trace_channels_pairs. unfold traced_pairs. rewrite Hc.
    cbn [rbind]. rewrite <- Hlen.
    rewrite (rmap_seq_ok _ founds 0); [reflexivity|].
    intros idx found Hidx. apply Hfound, Hidx. }
  unfold _vectorize_single_raster. rewrite Htrace. cbn [rbind].
  eexists. split; [reflexivity|]. cbn [nrows columns].
  split; [apply length_map|]. split.
  - intros Hname.
    assert (Hgeo : TIMESTAMP_value <> "geometry"%string) by discriminate.
    destruct ts as [stamp|], (value_column_name self) as [vn|];
      rewrite ?(lookup_insert_ne _ TIMESTAMP_value) by exact Hgeo;
      rewrite ?(lookup_insert_ne _ vn) by congruence;
      rewrite lookup_singleton_eq, map_map; reflexivity.
  - intros name Hname Hstamp. rewrite Hname.
    destruct ts as [stamp|].
    + destruct Hstamp as [Hne|Hnone]; [|discriminate].
      rewrite lookup_insert_ne by congruence.
      rewrite lookup_insert_eq, map_map. reflexivity.
    + rewrite lookup_insert_eq, map_map. reflexivity.
Qed.

(** X9. When the tracer raises on a channel and yields on every channel
    before it, [_vectorize_single_raster] raises that exception. *)
Theorem failing_channel_raises self raster tr crs ts (c k : nat) (e : exn) :
  last_dim raster = Ok c ->
  k < c ->
  (forall idx, idx < k ->
     exists found, channel_shapes self raster tr idx = Ok found) ->
  channel_shapes self raster tr k = Raise e ->
  _vectorize_single_raster self raster tr crs ts = Raise e.
Proof.
  intros Hc Hk Hbefore Hfail.
  unfold _vectorize_single_raster.
  rewrite trace_channels_pairs. unfold traced_pairs. rewrite Hc.
  cbn [rbind]. rewrite (rmap_seq_raise _ c k 0 e Hk Hbefore Hfail).
  reflexivity.
Qed.

(** *** [RasterToVector.execute], feature by feature *)

(** The two ways the body of the loop ends: it raises and leaves the
    world alone, or it stores one table under the destination, which is
    the table of the single call for a timeless feature and the
    composition of the tables of the slices otherwise. *)
Lemma vectorize_feature_cases self (f : FeatureType * string * string) w :
  (exists e, vectorize_feature self f w = (Raise e, w)) \/
  (exists table,
     vectorize_feature self f w
     = set_vector (fst (destination f)) (snd (destination f)) table w /\
     exists a tr,
       rasters (patch w) !! (fst (fst f), snd (fst f)) = Some a /\
       if is_timeless (fst (fst f)) then
         _vectorize_single_raster self (cast_raster self a) tr
                                  (get_crs (bbox (patch w))) None = Ok table
       else
         exists tables,
           slice_tables self (timestamp (patch w)) (cast_raster self a) tr
                        (get_crs (bbox (patch w))) = Ok tables /\
           compose tables = Ok table).
Proof.
  destruct f as [[ft fn] new]. cbn [fst snd destination].
  unfold vectorize_feature, bind, get_patch, lift, parse_feature_in,
    get_raster.
  destruct (rasters (patch w) !! (ft, fn)) as [a|] eqn:Ha; [|left; eauto].
  destruct (unpack2 _) as [[height width]|e]; [|left; eauto].
  destruct (from_bounds _ _ _ _ width height) as [tr|e]; [|left; eauto].
  fold (cast_raster self a).
  destruct (is_timeless ft) eqn:Htime.
  - destruct (_vectorize_single_raster _ _ _ _ None) as [table|e] eqn:Ht;
      [|left; eauto].
    right. exists table. split; [reflexivity|]. exists a, tr. auto.
  - destruct (slice_tables _ _ _ _ _) as [tables|e] eqn:Hs; [|left; eauto].
    destruct (compose tables) as [table|e] eqn:Hc; [|left; eauto].
    right. exists table. split; [reflexivity|]. exists a, tr.
    split; [reflexivity|]. exists tables. auto.
Qed.


(** The body of the loop reads the patch through its raster features,
    its bounding box and its timestamps only: on two worlds that agree on
    them it raises the same exception or stores the same table. *)
Lemma vectorize_feature_reads_inputs self
      (f : FeatureType * string * string) w1 w2 :
  rasters (patch w1) = rasters (patch w2) ->
  bbox (patch w1) = bbox (patch w2) ->
  timestamp (patch w1) = timestamp (patch w2) ->
  (exists e, vectorize_feature self f w1 = (Raise e, w1) /\
             vectorize_feature self f w2 = (Raise e, w2)) \/
  (exists table,
     vectorize_feature self f w1
     = set_vector (fst (destination f)) (snd (destination f)) table w1 /\
     vectorize_feature self f w2
     = set_vector (fst (destination f)) (snd (destination f)) table w2).
Proof.
  intros Hr Hb Ht. destruct f as [[ft fn] new]. cbn [fst snd destination].
  unfold vectorize_feature, bind, get_patch, lift, parse_feature_in,
    get_raster.
  rewrite Hr, Hb, Ht.
  destruct (rasters (patch w2) !! (ft, fn)) as [a|]; [|left; eauto].
  destruct (unpack2 _) as [[height width]|e]; [|left; eauto].
  destruct (from_bounds _ _ _ _ width height) as [tr|e]; [|left; eauto].
  destruct (is_timeless ft).
  - destruct (_vectorize_single_raster _ _ _ _ None) as [table|e];
      [right | left]; eauto.
  - destruct (slice_tables _ _ _ _ _) as [tables|e]; [|left; eauto].
    destruct (compose tables) as [table|e]; [right | left]; eauto.
Qed.

Lemma foreach_vectorize_keeps_inputs self
      (fs : list (FeatureType * string * string)) w :
  let w' := snd (foreach (vectorize_feature self) fs w) in
  rasters (patch w') = rasters (patch w) /\
  bbox (patch w') = bbox (patch w) /\
  timestamp (patch w') = timestamp (patch w).
Proof.
  revert w. induction fs as [|f fs IH]; intros w; cbn zeta; [cbn; auto|].
  cbn [foreach]. unfold bind.
  destruct (vectorize_feature_cases self f w) as [[e Hr]|[table [Hr _]]];
    rewrite Hr; [cbn; auto|].
  unfold set_vector at 1 2 3.
  apply (IH (snd (set_vector (fst (destination f)) (snd (destination f))
                             table w))).
Qed.

Lemma foreach_vectorize_keeps_vector self
      (fs : list (FeatureType * string * string)) w
      (key : FeatureType * string) :
  (forall f, In f fs -> destination f <> key) ->
  vectors (patch (snd (foreach (vectorize_feature self) fs w))) !! key
  = vectors (patch w) !! key.
Proof.
  revert w. induction fs as [|f fs IH]; intros w Hkey; [reflexivity|].
  cbn [foreach]. unfold bind.
  destruct (vectorize_feature_cases self f w) as [[e Hr]|[table [Hr _]]];
    rewrite Hr; [reflexivity|].
  unfold set_vector at 1.
  rewrite IH by (intros f' Hf'; apply Hkey; right; exact Hf').
  cbn [patch vectors]. apply lookup_insert_ne.
  rewrite <- surjective_pairing. apply Hkey. left. reflexivity.
Qed.

Lemma features_independent_from self
      (fs : list (FeatureType * string * string)) w
      (wc : @World Geometry Attrs) :
  rasters (patch wc) = rasters (patch w) ->
  bbox (patch wc) = bbox (patch w) ->
  timestamp (patch wc) = timestamp (patch w) ->
  fst (foreach (vectorize_feature self) fs wc) = Ok tt ->
  List.NoDup (map destination fs) ->
  forall f, In f fs ->
    exists table,
      vectorize_feature self f w
      = set_vector (fst (destination f)) (snd (destination f)) table w /\
      vectors (patch (snd (foreach (vectorize_feature self) fs wc)))
        !! destination f = Some table.
Proof.
  revert wc. induction fs as [|f0 fs IH];
    intros wc Hr Hb Ht Hok Hnodup f Hf; [destruct Hf|].
  cbn [foreach] in *. unfold bind in *.
  cbn [map] in Hnodup. apply List.NoDup_cons_iff in Hnodup as [Hfresh Hnodup].
  destruct (vectorize_feature_reads_inputs self f0 wc w Hr Hb Ht)
    as [(e & Hc & _)|(table0 & Hc & Hw)];
    rewrite Hc in *; [discriminate|].
  change (set_vector (fst (destination f0)) (snd (destination f0)) table0 wc)
    with (@Ok unit tt,
          snd (set_vector (fst (destination f0)) (snd (destination f0))
                          table0 wc)) in *.
  cbv beta iota in Hok |- *.
  destruct Hf as [<-|Hf].
  - exists table0. split; [exact Hw|].
    rewrite foreach_vectorize_keeps_vector.
    + unfold set_vector. cbn [snd patch vectors].
      destruct (destination f0) as [kind name]. apply lookup_insert_eq.
    + intros f' Hf' Heq. apply Hfresh. rewrite <- Heq.
      apply in_map, Hf'.
  - apply (IH (snd (set_vector (fst (destination f0))
                               (snd (destination f0)) table0 wc))
              Hr Hb Ht Hok Hnodup f Hf).
Qed.

(** X11. The features of one call do not interact.  In a call of
    [execute] that completes, over features with pairwise different
    destinations, the table stored for each feature is the table that
    the processing of this feature alone stores on the patch as it was
    before the call. *)
Theorem features_are_vectorized_independently self w :
  fst (RasterToVector_execute self w) = Ok tt ->
  List.NoDup (map destination (feature_gen self)) ->
  forall f, In f (feature_gen self) ->
    exists table,
      vectorize_feature self f w
      = set_vector (fst (destination f)) (snd (destination f)) table w /\
      vectors (patch (snd (RasterToVector_execute self w)))
        !! destination f = Some table.
Proof.
  intros Hok Hnodup f Hf. unfold RasterToVector_execute in *.
  apply (features_independent_from self (feature_gen self) w w);
    auto.
Qed.

(** X12. Whatever its outcome, [RasterToVector.execute] leaves the
    raster features, the bounding box, the timestamps and the frames of
    the caller as they were, and changes no vector feature other than the
    destinations of the listed features. *)
Theorem RasterToVector_execute_touches_only_destinations self w :
  let w' := snd (RasterToVector_execute self w) in
  rasters (patch w') = rasters (patch w) /\
  bbox (patch w') = bbox (patch w) /\
  timestamp (patch w') = timestamp (patch w) /\
  frames w' = frames w /\
  (forall key,
     (forall f, In f (feature_gen self) -> destination f <> key) ->
     vectors (patch w') !! key = vectors (patch w) !! key).
Proof.
  unfold RasterToVector_execute. generalize (feature_gen self) as fs.
  intros fs. revert w. induction fs as [|f fs IH]; intros w; cbn zeta.
  - cbn. auto.
  - cbn [foreach]. unfold bind.
    destruct (vectorize_feature_cases self f w) as [[e Hr]|[table [Hr _]]];
      rewrite Hr; [cbn; auto|].
    unfold set_vector at 1 2 3 4 5.
    specialize (IH (snd (set_vector (fst (destination f))
                                    (snd (destination f)) table w))).
    cbn zeta in IH. destruct IH as (Hr' & Hb & Ht & Hf & Hv).
    unfold set_vector in Hr', Hb, Ht, Hf, Hv.
    cbn [snd patch rasters bbox timestamp frames vectors] in *.
    repeat split; auto.
    intros key Hkey. rewrite Hv.
    + apply lookup_insert_ne. rewrite <- surjective_pairing.
      apply Hkey. left. reflexivity.
    + intros f' Hf'. apply Hkey. right. exact Hf'.
Qed.

(** *** Edge cases of [RasterToVector.execute] *)

(** X13. A time-varying feature with more time slices than the patch
    has timestamps makes [execute] raise an IndexError, once the slices
    that do have a timestamp are vectorized; the world is left as it
    was. *)
Theorem missing_timestamp_raises self raster_ft raster_fn vector_fn w a
        height width tr :
  is_timeless raster_ft = false ->
  rasters (patch w) !! (raster_ft, raster_fn) = Some a ->
  unpack2 (slice_shape 1 3 (shape a)) = Ok (height, width) ->
  patch_transform (patch w) width height = Ok tr ->
  length (timestamp (patch w))
  < default 0 (head (shape (cast_raster self a))) ->
  (forall i stamp,
     timestamp (patch w) !! i = Some stamp ->
     exists g,
       _vectorize_single_raster self (take_first (cast_raster self a) i) tr
                                (get_crs (bbox (patch w))) (Some stamp)
       = Ok g) ->
  vectorize_feature self (raster_ft, raster_fn, vector_fn) w
  = (Raise IndexError, w).
Proof.
  intros Htime Ha Hshape Htr Hfew Hslices.
  pose proof (vectorize_feature_run self raster_ft raster_fn vector_fn w a
                height width tr Ha) as Hrun.
  rewrite Htime in Hrun. rewrite (Hrun Hshape Htr).
  unfold slice_tables.
  rewrite (rmap_seq_raise _ _ (length (timestamp (patch w))) 0 IndexError
             Hfew); [reflexivity| |].
  - intros i Hi. cbn [Nat.add]. unfold index.
    destruct (lookup_lt_is_Some_2 (timestamp (patch w)) i Hi) as [stamp Hs].
    rewrite Hs. cbn [rbind]. apply (Hslices i stamp Hs).
  - cbn [Nat.add]. unfold index.
    rewrite (lookup_ge_None_2 (timestamp (patch w)) _ (Nat.le_refl _)).
    reflexivity.
Qed.

Lemma unpack2_wrong_length (l : list nat) :
  length l <> 2 -> unpack2 (map Z.of_nat l) = Raise ValueError.
Proof.
  destruct l as [|x [|y [|z l]]]; cbn; intros Hl;
    try reflexivity. contradiction.
Qed.

(** X14. A timeless feature whose array has fewer than two axes, or a
    time-varying one whose array has fewer than three, makes [execute]
    raise a ValueError when the spatial shape is unpacked; the world is
    left as it was. *)
Theorem too_few_axes_raise self raster_ft raster_fn vector_fn w a :
  rasters (patch w) !! (raster_ft, raster_fn) = Some a ->
  length (shape a) < (if is_timeless raster_ft then 2 else 3) ->
  vectorize_feature self (raster_ft, raster_fn, vector_fn) w
  = (Raise ValueError, w).
Proof.
  intros Ha Hlen.
  unfold vectorize_feature, bind, get_patch, lift, parse_feature_in,
    get_raster.
  rewrite Ha. unfold slice_shape.
  destruct (is_timeless raster_ft);
    rewrite unpack2_wrong_length; try reflexivity;
    rewrite length_firstn, ?length_skipn; lia.
Qed.

(** *** Configuration *)

(** X15. [RasterToVector.__init__] succeeds exactly when the kind of
    every listed feature is spatial and discrete, and the task then holds
    the arguments as they were given; otherwise it raises a ValueError. *)
Theorem RasterToVector_init_checks_every_kind
        (features : list (FeatureType * string * string))
        (vals : option (list Z)) (column : option string)
        (dt : option DType) (ps : ShapesParams) :
  RasterToVector_init features vals column dt ps
  = if forallb accepted_kind features
    then Ok (mk_RasterToVector features vals column dt ps)
    else Raise ValueError.
Proof.
  destruct (forallb accepted_kind features) eqn:Hall.
  - apply accepted_kinds_configure, List.Forall_forall.
    intros f Hf. rewrite forallb_forall in Hall. apply Hall, Hf.
  - unfold RasterToVector_init. cbn [feature_gen].
    rewrite kind_check_raises; [reflexivity|].
    assert (Hex : existsb (fun f => negb (accepted_kind f)) features = true).
    { clear - Hall. induction features as [|f fs IH]; [discriminate|].
      cbn in *. destruct (accepted_kind f); cbn in *; auto. }
    apply existsb_exists in Hex as [f [Hf Hbad]].
    exists f. split; [exact Hf|].
    destruct (accepted_kind f); [discriminate Hbad | reflexivity].
Qed.

(** *** Stored tables *)

Lemma concat_step_well_formed
      (acc : gmap string (list (@Cell Geometry)) * nat) g :
  (forall name col, fst acc !! name = Some col -> length col = snd acc) ->
  well_formed g ->
  forall name col,
    fst (concat_step acc g) !! name = Some col ->
    length col = snd (concat_step acc g).
Proof.
  intros Hacc Hg name col. unfold concat_step. cbn [fst snd].
  rewrite lookup_merge.
  destruct (fst acc !! name) as [x|] eqn:Hx,
           (columns g !! name) as [y|] eqn:Hy; cbn;
    intros Hcol; try discriminate; injection Hcol as <-;
    rewrite length_app, ?repeat_length;
    rewrite ?(Hacc _ _ Hx), ?(Hg _ _ Hy); reflexivity.
Qed.

Lemma concat_fold_well_formed (rest : list (@GeoDataFrame Geometry))
      (acc : gmap string (list (@Cell Geometry)) * nat) :
  (forall name col, fst acc !! name = Some col -> length col = snd acc) ->
  Forall well_formed rest ->
  forall name col,
    fst (fold_left concat_step rest acc) !! name = Some col ->
    length col = snd (fold_left concat_step rest acc).
Proof.
  revert acc. induction rest as [|g rest IH]; intros acc Hacc Hall;
    [exact Hacc|].
  inversion Hall as [|? ? Hg Hrest]; subst. cbn [fold_left].
  apply IH; [|exact Hrest]. apply concat_step_well_formed; assumption.
Qed.

(** Composition keeps tables well formed, also when their columns
    differ. *)
Lemma compose_well_formed tables table :
  Forall well_formed tables -> compose tables = Ok table ->
  well_formed table.
Proof.
  intros Hall Hc. destruct tables as [|g rest]; [discriminate|].
  rewrite compose_nonempty in Hc. injection Hc as <-.
  inversion Hall as [|? ? Hg Hrest]; subst.
  intros name col. cbn [columns nrows].
  apply concat_fold_well_formed; [exact Hg | exact Hrest].
Qed.

(** X16. Every table [execute] stores, for a timeless feature or for a
    time-varying one, has in each of its columns exactly one cell per
    row. *)
Theorem stored_table_well_formed self
        (f : FeatureType * string * string) w :
  fst (vectorize_feature self f w) = Ok tt ->
  exists table,
    vectors (patch (snd (vectorize_feature self f w))) !! destination f
    = Some table /\
    well_formed table.
Proof.
  intros Hok.
  destruct (vectorize_feature_cases self f w)
    as [[e Hr]|(table & Hr & a & tr & _ & Htable)];
    rewrite Hr in *; [discriminate|].
  exists table. split.
  - unfold set_vector. cbn [snd patch vectors].
    rewrite <- surjective_pairing. apply lookup_insert_eq.
  - destruct (is_timeless (fst (fst f))).
    + apply (single_table_well_formed _ _ _ _ _ _ Htable).
    + destruct Htable as (tables & Hs & Hc).
      apply (compose_well_formed tables table); [|exact Hc].
      apply List.Forall_forall. intros g Hg.
      destruct (rmap_ok_in _ _ _ Hs g Hg) as [i [_ Hi]].
      destruct (index (timestamp (patch w)) i) as [stamp|e];
        [|discriminate].
      cbn [rbind] in Hi. apply (single_table_well_formed _ _ _ _ _ _ Hi).
Qed.

(** *** Burning twice *)

Lemma squeeze_newaxis_squeeze {A} (a : ndarray A) (dt : DType)
      (d : list A) :
  squeeze (newaxis_last (mk_ndarray (shape (squeeze a)) dt d))
  = mk_ndarray (shape (squeeze a)) dt d.
Proof.
  unfold squeeze, newaxis_last. cbn [shape dtype data]. f_equal.
  rewrite List.filter_app. cbn [List.filter Nat.eqb negb].
  rewrite app_nil_r.
  induction (shape a) as [|x sh IH]; [reflexivity|].
  cbn [List.filter]. destruct (negb (x =? 1)) eqn:Hx; [|exact IH].
  cbn [List.filter]. rewrite Hx, IH. reflexivity.
Qed.

Lemma submap_rows_stable t w w1 :
  bbox (patch w1) = bbox (patch w) ->
  (forall l fr, frames w !! l = Some fr -> frames w1 !! l = Some fr) ->
  is_Some (frames w !! vector_data t) ->
  submap_rows t w1 = submap_rows t w.
Proof.
  intros Hb Hold [vd Hvd]. unfold submap_rows, input_frame.
  rewrite Hb. do 2 f_equal.
  exact (eq_trans (Hold _ _ Hvd) (eq_sym Hvd)).
Qed.

(** X17. Burning the same vector data twice gives the grid of burning
    it once.  When the task holds its vector data, the target feature
    exists, the shape is an explicit pair, the merge algorithm is not
    [add] and the rasterizer accepts both calls, a second call of
    [execute] completes and leaves the patch as the first call left
    it. *)
Theorem burning_twice_is_burning_once t w a height width tr :
  rasterize_frame -> rasterize_writes ->
  merge_alg (params t) <> Some merge_add ->
  is_Some (frames w !! vector_data t) ->
  rasters (patch w) !! (feature_type t, feature_name t) = Some a ->
  raster_shape t = ShapePair height width ->
  patch_transform (patch w) width height = Ok tr ->
  kernel_accepts t w height width tr ->
  let w1 := snd (VectorToRaster_execute t w) in
  kernel_accepts t w1 height width tr ->
  fst (VectorToRaster_execute t w) = Ok tt /\
  fst (VectorToRaster_execute t w1) = Ok tt /\
  patch (snd (VectorToRaster_execute t w1)) = patch w1.
Proof.
  intros Hframe Hwrites Hmerge Hvd Ha Hpair Htr Hacc w1 Hacc1.
  assert (Hshape : forall p, rbind (_get_shape t p) unpack2
                             = Ok (height, width))
    by (intros p; unfold _get_shape; rewrite Hpair; reflexivity).
  pose proof (VectorToRaster_execute_keeps_rest t w) as Hkeep.
  fold w1 in Hkeep. destruct Hkeep as (Hb & Hts & Hv & Hother).
  assert (Hfr : forall l fr, frames w !! l = Some fr ->
                             frames w1 !! l = Some fr)
    by (intros l fr; apply VectorToRaster_execute_keeps_frames).
  pose proof (base_grid_existing t (patch w) height width a Ha) as Hbase.
  destruct (VectorToRaster_execute_success t w height width tr _ _
              (Hshape _) Htr Hbase Hacc) as (d & w' & Hd & Hrun & Hout).
  assert (Hw' : w' = w1) by (unfold w1; rewrite Hrun; reflexivity).
  subst w'. split; [rewrite Hrun; reflexivity|].
  assert (Hrows : submap_rows t w1 = submap_rows t w)
    by (apply submap_rows_stable; assumption).
  assert (Htr1 : patch_transform (patch w1) width height = Ok tr)
    by (unfold patch_transform in *; rewrite Hb; exact Htr).
  pose proof (base_grid_existing t (patch w1) height width _ Hout) as Hbase1.
  rewrite squeeze_newaxis_squeeze in Hbase1.
  destruct (VectorToRaster_execute_success t w1 height width tr _ _
              (Hshape _) Htr1 Hbase1 Hacc1) as (d2 & w2 & Hd2 & Hrun2 & Hout2).
  rewrite Hrun2. split; [reflexivity|]. cbn [snd].
  assert (Hsame : d2 = d).
  { unfold burnt_cells in Hd, Hd2. rewrite Hrows in Hd2.
    cbn [data shape dtype] in Hd2.
    destruct (frame_empty (submap_rows t w)); [exact Hd2|].
    unfold burn_shapes in *.
    destruct (Hframe _ _ _ _ _ _ Hd) as [Hlen Hfree].
    destruct (Hframe _ _ _ _ _ _ Hd2) as [Hlen2 Hfree2].
    cbn [data shape] in *.
    apply list_eq. intros i.
    destruct (burned [(buffer (cascaded_union
                                 (map geometry (submap_rows t w))) 0,
                       raster_value t)] tr (params t)
                     (shape (squeeze a)) i) eqn:Hburn.
    - destruct (Nat.lt_ge_cases i (length (data a))) as [Hi|Hi].
      + rewrite (Hwrites _ _ _ _ _ _ _ Hmerge Hd i Hi Hburn).
        apply (Hwrites _ _ _ _ _ _ _ Hmerge Hd2 i); cbn [data shape];
          [rewrite Hlen; exact Hi | exact Hburn].
      + change (data (squeeze a)) with (data a) in Hlen.
        rewrite (lookup_ge_None_2 d2), (lookup_ge_None_2 d);
          [reflexivity|..]; lia.
    - apply Hfree2. exact Hburn. }
  subst d2.
  pose proof (VectorToRaster_execute_keeps_rest t w1) as Hkeep2.
  rewrite Hrun2 in Hkeep2. cbn [snd] in Hkeep2.
  destruct Hkeep2 as (Hb2 & Hts2 & Hv2 & Hother2).
  destruct (patch w2) as [b2 ts2 r2 v2] eqn:Hp2.
  destruct (patch w1) as [b1 ts1 r1 v1] eqn:Hp1.
  cbn [bbox timestamp vectors rasters] in *. subst b2 ts2 v2. f_equal.
  apply map_eq. intros key.
  destruct (decide (key = (feature_type t, feature_name t))) as [->|Hkey].
  - rewrite Hout, Hout2. reflexivity.
  - apply Hother2, Hkey.
Qed.

(** *** Rows outside the window *)

(** X20. Rows of the vector data that do not intersect the window have
    no influence: two calls on the same patch whose vector data have the
    same intersecting rows end with the same outcome and the same
    patch. *)
Theorem rows_outside_window_are_ignored t w w2 :
  patch w2 = patch w ->
  List.filter (fun r => intersects (geometry r)
                          (get_geometry (bbox (patch w))))
              (input_frame t w2)
  = List.filter (fun r => intersects (geometry r)
                            (get_geometry (bbox (patch w))))
                (input_frame t w) ->
  fst (VectorToRaster_execute t w2) = fst (VectorToRaster_execute t w) /\
  patch (snd (VectorToRaster_execute t w2))
  = patch (snd (VectorToRaster_execute t w)).
Proof.
  intros Hp Hrows.
  assert (Hsub : submap_rows t w2 = submap_rows t w)
    by (unfold submap_rows, clipped; rewrite Hp, Hrows; reflexivity).
  rewrite !VectorToRaster_execute_run. cbn zeta. rewrite Hp, Hsub.
  destruct (rbind (_get_shape t (patch w)) unpack2) as [[height width]|e];
    [|cbn; auto].
  destruct (patch_transform (patch w) width height) as [tr|e];
    [|cbn; auto].
  destruct (base_grid t (patch w) height width) as [[raster shared]|e];
    [|cbn; auto].
  destruct (frame_empty (submap_rows t w)).
  - cbn. rewrite Hp. auto.
  - destruct (rasterize _ raster tr _ _) as [d|e]; [|cbn; auto].
    destruct shared; cbn; rewrite Hp; auto.
Qed.

(** *** CRS of the composed table (C2) *)


End MoreProperties.

(** ** The reference kernels meet the contracts *)

Lemma pixel_intersects_nonempty :
  intersects_nonempty (Geometry := PixelRef.Geometry)
                      (GeoJSON := PixelRef.GeoJSON).
Proof.
  intros g w. cbn [intersects intersection is_empty PixelRef.shapely].
  induction g as [|c g IH]; cbn [existsb List.filter]; [discriminate|].
  destruct (PixelRef.mem c w); [reflexivity|]. exact IH.
Qed.

Lemma pixel_burn_one_frame (tr : Affine) (ps : RasterizeParams)
      (sh : list nat) (cells : list Z) (gv : PixelRef.Geometry * Z)
      (i : nat) :
  PixelRef.covers (fst gv) tr sh i = false ->
  PixelRef.burn_one tr ps sh cells gv !! i = cells !! i.
Proof.
  intros Hc. unfold PixelRef.burn_one. rewrite list_lookup_imap.
  destruct (cells !! i) as [old|]; [|reflexivity].
  cbn. rewrite Hc. reflexivity.
Qed.

Lemma pixel_burn_fold_frame (tr : Affine) (ps : RasterizeParams)
      (sh : list nat) (shp : list (PixelRef.Geometry * Z)) (cells : list Z) :
  length (fold_left (PixelRef.burn_one tr ps sh) shp cells) = length cells /\
  forall i,
    existsb (fun gv => PixelRef.covers (fst gv) tr sh i) shp = false ->
    fold_left (PixelRef.burn_one tr ps sh) shp cells !! i = cells !! i.
Proof.
  revert cells. induction shp as [|gv shp IH]; intros cells.
  - split; [reflexivity | intros; reflexivity].
  - cbn [fold_left existsb].
    destruct (IH (PixelRef.burn_one tr ps sh cells gv)) as [Hlen Hkeep].
    split.
    + rewrite Hlen. unfold PixelRef.burn_one. apply length_imap.
    + intros i Hi. apply orb_false_iff in Hi as [Hgv Hrest].
      rewrite (Hkeep i Hrest). apply pixel_burn_one_frame, Hgv.
Qed.

Lemma pixel_rasterize_frame :
  rasterize_frame (Geometry := PixelRef.Geometry)
                  (GeoJSON := PixelRef.GeoJSON).
Proof.
  intros shp out tr dt ps d' Hr.
  cbn [rasterize burned PixelRef.rasterio] in *.
  destruct (shape out) as [|h [|wd [|x rest]]]; try discriminate.
  injection Hr as <-. apply pixel_burn_fold_frame.
Qed.

Lemma pixel_shapes_sound :
  shapes_sound (Geometry := PixelRef.Geometry)
               (GeoJSON := PixelRef.GeoJSON).
Proof.
  intros img m tr ps l g v Hl Hg.
  cbn [shapes footprint PixelRef.rasterio] in *.
  destruct (shape img) as [|h [|wd [|x rest]]]; try discriminate.
  injection Hl as <-.
  apply list_elem_of_In, list_elem_of_omap in Hg as [i [_ Hi]].
  destruct (data img !! i) as [v'|] eqn:Hv; [|discriminate].
  destruct m as [mk|].
  - destruct (data mk !! i) as [[|]|] eqn:Hm; cbn in Hi; try discriminate.
    injection Hi as <- <-. cbn [PixelRef.traced_cells]. split; [discriminate|].
    intros j [<-|[]]. split; [exact Hv|].
    intros mk' Hmk. injection Hmk as <-. exact Hm.
  - injection Hi as <- <-. cbn [PixelRef.traced_cells]. split; [discriminate|].
    intros j [<-|[]]. split; [exact Hv|]. intros mk' Hmk. discriminate.
Qed.

(** ** Concrete runs *)

Import PixelRef Examples.
Local Open Scope string_scope.

(** *** The window clipper *)

Lemma window_clipper_contract_witness :
  intersects_nonempty (Geometry := Geometry) (GeoJSON := GeoJSON) /\
  exists l w',
    _get_submap burn_existing world_roads = (Ok l, w') /\
    frames w' !! l = Some [mk_VRow [(0, 0); (1, 0)]%Z "a"] /\
    frames w' !! 0 = Some roads /\
    patch w' = patch world_roads.
Proof.
  split; [exact pixel_intersects_nonempty|].
  destruct (window_clipper_contract burn_existing world_roads
              pixel_intersects_nonempty)
    as (l & w' & Hrun & Hl & _ & Hold & Hpatch).
  exists l, w'. split; [exact Hrun|]. split; [exact Hl|].
  split; [apply Hold; reflexivity | exact Hpatch].
Defined.

(** *** Unresolvable shape *)

Lemma unresolved_shape_raises_before_mutation_witness :
  explicit_pair (raster_shape burn_unresolved) = false /\
  resolvable_reference (patch world_roads) (raster_shape burn_unresolved)
  = false /\
  exists w',
    VectorToRaster_execute burn_unresolved world_roads
    = (Raise ValueError, w') /\
    patch w' = patch world_roads.
Proof.
  split; [reflexivity|]. split; [reflexivity|].
  apply (unresolved_shape_raises_before_mutation burn_unresolved world_roads);
    reflexivity.
Defined.

(** *** Feature kinds *)

Lemma unsupported_kind_raises_eagerly_witness :
  (exists f, In f [(MASK, "m", "v"); (DATA, "bands", "b")] /\
             accepted_kind f = false) /\
  RasterToVector_init [(MASK, "m", "v"); (DATA, "bands", "b")]
                      None (Some "VALUE") None shapes_defaults
  = Raise ValueError /\
  RasterToVector_run [(MASK, "m", "v"); (DATA, "bands", "b")]
                     None (Some "VALUE") None shapes_defaults
                     (series_world [10; 20]%Z)
  = (Raise ValueError, series_world [10; 20]%Z).
Proof.
  assert (Hbad : exists f, In f [(MASK, "m", "v"); (DATA, "bands", "b")] /\
                           accepted_kind f = false).
  { exists (DATA, "bands", "b"). split; [right; left; reflexivity|].
    reflexivity. }
  split; [exact Hbad|].
  apply (unsupported_kind_raises_eagerly
           [(MASK, "m", "v"); (DATA, "bands", "b")]
           None (Some "VALUE") None shapes_defaults
           (series_world [10; 20]%Z) Hbad).
Defined.

(** *** Empty clip *)

Lemma empty_clip_leaves_grid_witness :
  rasters (patch world_far) !! (MASK_TIMELESS, "m")
  = Some (mk_ndarray [2; 3; 1] np_uint8 [7; 7; 7; 7; 7; 7]%Z) /\
  Forall (fun r => intersects (geometry r)
                     (get_geometry (bbox (patch world_far))) = false)
         (input_frame burn_existing world_far) /\
  (exists a',
     rasters (patch (snd (VectorToRaster_execute burn_existing world_far)))
       !! (MASK_TIMELESS, "m") = Some a' /\
     data a' = [7; 7; 7; 7; 7; 7]%Z /\ dtype a' = np_uint8) /\
  fst (VectorToRaster_execute burn_existing world_far) = Ok tt.
Proof.
  assert (Ha : rasters (patch world_far) !! (MASK_TIMELESS, "m")
               = Some (mk_ndarray [2; 3; 1] np_uint8 [7; 7; 7; 7; 7; 7]%Z))
    by reflexivity.
  assert (Hfar : Forall (fun r => intersects (geometry r)
                           (get_geometry (bbox (patch world_far))) = false)
                        (input_frame burn_existing world_far))
    by (repeat constructor).
  destruct (empty_clip_leaves_grid burn_existing world_far _ Ha Hfar)
    as [Hkeep Hok].
  split; [exact Ha|]. split; [exact Hfar|]. split; [exact Hkeep|].
  apply (Hok 2%Z 3%Z transform_2x3); reflexivity.
Defined.

(** *** The base grid *)

Lemma accepts_burn_existing :
  kernel_accepts burn_existing world_roads 2 3 transform_2x3.
Proof.
  intros base shared Hbase _. vm_compute in Hbase.
  injection Hbase as <- <-. eexists. reflexivity.
Qed.

Lemma accepts_burn_new :
  kernel_accepts burn_new world_roads 2 3 transform_2x3.
Proof.
  intros base shared Hbase _. vm_compute in Hbase.
  injection Hbase as <- <-. eexists. reflexivity.
Qed.

Lemma accepts_burn_big :
  kernel_accepts burn_big world_roads 2 2 transform_2x2.
Proof.
  intros base shared Hbase _. vm_compute in Hbase.
  injection Hbase as <- <-. eexists. reflexivity.
Qed.


Lemma existing_feature_fixes_shape_and_dtype_witness :
  rasters (patch world_roads) !! (MASK_TIMELESS, "big")
  = Some (mk_ndarray [3; 3; 1] np_int16 [9; 9; 9; 9; 9; 9; 9; 9; 9]%Z) /\
  rbind (_get_shape burn_big (patch world_roads)) unpack2 = Ok (2, 2)%Z /\
  patch_transform (patch world_roads) 2 2 = Ok transform_2x2 /\
  kernel_accepts burn_big world_roads 2 2 transform_2x2 /\
  exists w' out,
    VectorToRaster_execute burn_big world_roads = (Ok tt, w') /\
    rasters (patch w') !! (MASK_TIMELESS, "big") = Some out /\
    shape out = [3; 3; 1] /\ dtype out = np_int16.
Proof.
  split; [reflexivity|]. split; [reflexivity|]. split; [reflexivity|].
  split; [exact accepts_burn_big|].
  destruct (existing_feature_fixes_shape_and_dtype burn_big world_roads
              (mk_ndarray [3; 3; 1] np_int16 [9; 9; 9; 9; 9; 9; 9; 9; 9]%Z)
              2 2 transform_2x2 eq_refl eq_refl eq_refl accepts_burn_big)
    as (w' & out & Hrun & Hout & Hshape & Hdtype & _).
  exists w', out. auto.
Defined.

Lemma stored_grid_has_trailing_axis_witness :
  rbind (_get_shape burn_new (patch world_roads)) unpack2 = Ok (2, 3)%Z /\
  patch_transform (patch world_roads) 3 2 = Ok transform_2x3 /\
  kernel_accepts burn_new world_roads 2 3 transform_2x3 /\
  exists w' out,
    VectorToRaster_execute burn_new world_roads = (Ok tt, w') /\
    rasters (patch w') !! (MASK_TIMELESS, "n") = Some out /\
    shape out = [2; 3; 1].
Proof.
  split; [reflexivity|]. split; [reflexivity|].
  split; [exact accepts_burn_new|].
  destruct (stored_grid_has_trailing_axis burn_new world_roads 2 3
              transform_2x3 eq_refl eq_refl accepts_burn_new)
    as (w' & out & Hrun & Hout & _ & Hshape).
  { intros _. split; lia. }
  exists w', out. split; [exact Hrun|]. split; [exact Hout|]. exact Hshape.
Defined.

(** Counterexample to C9 as stated: the 3 x 3 mask ["big"] exists, a grid
    of 2 x 2 cells is requested, and the stored array has shape
    [(3, 3, 1)], not [(2, 2, 1)]. *)
Lemma stored_shape_follows_existing_feature :
  rbind (_get_shape burn_big (patch world_far)) unpack2 = Ok (2, 2)%Z /\
  fst (VectorToRaster_execute burn_big world_far) = Ok tt /\
  shape <$> rasters (patch (snd (VectorToRaster_execute burn_big world_far)))
              !! (MASK_TIMELESS, "big")
  = Some [3; 3; 1] /\
  [3; 3; 1] <> [2; 2; 1].
Proof.
  split; [reflexivity|]. split; [reflexivity|].
  split; [reflexivity | discriminate].
Qed.

(** *** The value filter *)

(** C1. The property fails for the empty list of values: [if self.values:]
    takes the empty list for no filter, no mask is built, and every value
    of the raster is vectorized.  With [values=[]] the table of the mask
    [[1; 0]], [[0; 2]] has the rows of the values 1, 0, 0 and 2, none of
    which belongs to the empty filter. *)
Theorem empty_value_list_filters_nothing :
  values vectorize_none = Some [] /\
  build_mask vectorize_none series_mask = None /\
  exists table,
    fst (RasterToVector_execute vectorize_none (series_world [10; 20]%Z))
    = Ok tt /\
    vectors (patch (snd (RasterToVector_execute vectorize_none
                           (series_world [10; 20]%Z))))
      !! (VECTOR, "v") = Some table /\
    column "VALUE" table = [CValue 1; CValue 0; CValue 0; CValue 2].
Proof.
  split; [reflexivity|]. split; [reflexivity|].
  eexists. split; [vm_compute; reflexivity|].
  split; [vm_compute; reflexivity|]. vm_compute. reflexivity.
Qed.

Lemma filter_containment_witness :
  shapes_sound (Geometry := Geometry) (GeoJSON := GeoJSON) /\
  values_truthy (values vectorize_12) = true /\
  exists geo vals,
    trace_channels vectorize_12 (take_first series_mask 1) transform_1x2
    = Ok (geo, vals) /\
    forall v, In v vals -> In v [1; 2]%Z.
Proof.
  split; [exact pixel_shapes_sound|]. split; [reflexivity|].
  eexists. eexists. split; [vm_compute; reflexivity|].
  apply (filter_containment vectorize_12 (take_first series_mask 1)
           transform_1x2 _ _ pixel_shapes_sound eq_refl eq_refl).
Defined.

(** *** CRS of the composed table *)


(** *** Order of the time slices *)

(** Counterexample to C4 as stated: the timestamps of a patch need not be
    ascending, each slice is tagged with its own timestamp, and the
    timestamp column of the composed table then decreases. *)
Lemma descending_stamps_give_descending_column :
  exists table,
    fst (RasterToVector_execute vectorize_12 (series_world [20; 10]%Z))
    = Ok tt /\
    vectors (patch (snd (RasterToVector_execute vectorize_12
                           (series_world [20; 10]%Z))))
      !! (VECTOR, "v") = Some table /\
    column_times (column TIMESTAMP_value table) = [20; 10]%Z /\
    ~ Sorted Z.le (column_times (column TIMESTAMP_value table)).
Proof.
  eexists. split; [vm_compute; reflexivity|].
  split; [vm_compute; reflexivity|].
  split.
  - vm_compute. reflexivity.
  - intros Hs. vm_compute in Hs.
    inversion Hs as [|? ? _ Hrel]; subst.
    inversion Hrel as [|? ? Hle]; subst. apply Hle. reflexivity.
Qed.

Lemma time_slices_composed_in_order_witness :
  rasters (patch (series_world [10; 20]%Z)) !! (MASK, "m")
  = Some series_mask /\
  unpack2 (slice_shape 1 3 (shape series_mask)) = Ok (1, 2)%Z /\
  patch_transform (patch (series_world [10; 20]%Z)) 2 1
  = Ok transform_1x2 /\
  Sorted Z.le [10; 20]%Z /\
  exists table w',
    vectorize_feature vectorize_12 (MASK, "m", "v")
                      (series_world [10; 20]%Z) = (Ok tt, w') /\
    vectors (patch w') !! (VECTOR, "v") = Some table /\
    nrows table = 2 /\
    columns table !! TIMESTAMP_value = Some [CTime 10; CTime 20] /\
    columns table !! "VALUE" = Some [CValue 1; CValue 2] /\
    Sorted Z.le (column_times (column TIMESTAMP_value table)).
Proof.
  assert (Hsorted : Sorted Z.le [10; 20]%Z).
  { repeat constructor. discriminate. }
  split; [reflexivity|]. split; [reflexivity|]. split; [reflexivity|].
  split; [exact Hsorted|].
  destruct (time_slices_composed_in_order vectorize_12
              (series_world [10; 20]%Z) MASK "m" "v" series_mask 1 2
              transform_1x2 eq_refl eq_refl eq_refl) as [Htime _].
  destruct (Htime eq_refl series_tables) as
    (table & w' & Hrun & Hstored & Hrows & Hcols & Hstamps & Hsort).
  - cbn. lia.
  - reflexivity.
  - intros [|[|i]] g Hg; [| |discriminate Hg].
    + injection Hg as <-. exists 10%Z. split; [reflexivity|].
      vm_compute. reflexivity.
    + injection Hg as <-. exists 20%Z. split; [reflexivity|].
      vm_compute. reflexivity.
  - exists table, w'. split; [exact Hrun|]. split; [exact Hstored|].
    split; [exact Hrows|]. split; [exact Hstamps|].
    split; [exact (Hcols "VALUE" _ eq_refl) | exact (Hsort Hsorted)].
Defined.

(** *** Further runs *)

Lemma pixel_rasterize_writes :
  rasterize_writes (Geometry := Geometry) (GeoJSON := GeoJSON).
Proof.
  intros geom v out tr dt ps d' Hmerge Hr i Hi Hb.
  cbn [rasterize burned PixelRef.rasterio existsb fst] in *.
  rewrite orb_false_r in Hb.
  destruct (shape out) as [|h [|wd [|x rest]]]; try discriminate.
  injection Hr as <-. cbn [fold_left]. unfold burn_one.
  rewrite list_lookup_imap.
  destruct (lookup_lt_is_Some_2 (data out) i Hi) as [old Hold].
  rewrite Hold. cbn [fmap option_fmap option_map fst snd]. rewrite Hb.
  destruct (merge_alg ps) as [[|]|]; try reflexivity. congruence.
Qed.

Lemma VectorToRaster_execute_touches_only_target_witness :
  (MASK_TIMELESS, "big") <> (feature_type burn_existing,
                             feature_name burn_existing) /\
  shape <$> rasters (patch (snd (VectorToRaster_execute burn_existing
                                   world_roads)))
              !! (MASK_TIMELESS, "big")
  = Some [3; 3; 1] /\
  dtype <$> rasters (patch (snd (VectorToRaster_execute burn_existing
                                   world_roads)))
              !! (MASK_TIMELESS, "big")
  = Some np_int16 /\
  frames (snd (VectorToRaster_execute burn_existing world_roads)) !! 0
  = Some roads.
Proof.
  assert (Hne : (MASK_TIMELESS, "big")
                <> (feature_type burn_existing, feature_name burn_existing))
    by discriminate.
  destruct (VectorToRaster_execute_touches_only_target burn_existing
              world_roads) as (_ & _ & _ & Hother & Hframes).
  destruct (Hother _ Hne) as [Hshape Hdtype].
  split; [exact Hne|]. split; [exact Hshape|]. split; [exact Hdtype|].
  apply Hframes. reflexivity.
Defined.

Lemma VectorToRaster_execute_raise_keeps_patch_witness :
  fst (VectorToRaster_execute burn_unresolved world_roads)
  = Raise ValueError /\
  patch (snd (VectorToRaster_execute burn_unresolved world_roads))
  = patch world_roads.
Proof.
  split; [reflexivity|].
  apply (VectorToRaster_execute_raise_keeps_patch burn_unresolved
           world_roads ValueError).
  reflexivity.
Defined.

Lemma far_away_misses_window (t : VectorToRaster) (p : EOPatch) :
  vector_data t = 0 -> bbox p = window ->
  Forall (fun r => intersects (geometry r) (get_geometry (bbox p)) = false)
         (input_frame t (mk_World p [far_away])).
Proof.
  intros Hl Hb. unfold input_frame. cbn [frames]. rewrite Hl, Hb.
  repeat constructor.
Qed.

Lemma empty_clip_is_identity_witness :
  fst (VectorToRaster_execute burn_existing world_far) = Ok tt /\
  patch (snd (VectorToRaster_execute burn_existing world_far))
  = patch world_far.
Proof.
  apply (empty_clip_is_identity burn_existing world_far
           (mk_ndarray [2; 3; 1] np_uint8 [7; 7; 7; 7; 7; 7]%Z)
           2 3 2 3 transform_2x3);
    try reflexivity; try discriminate.
  apply (far_away_misses_window burn_existing mask_patch); reflexivity.
Defined.

Lemma single_row_grid_loses_an_axis_witness :
  fst (VectorToRaster_execute burn_row row_world) = Ok tt /\
  rasters (patch (snd (VectorToRaster_execute burn_row row_world)))
    !! (MASK_TIMELESS, "t")
  = Some (mk_ndarray [2; 1] np_uint8 [5; 5]%Z).
Proof.
  apply (single_row_grid_loses_an_axis burn_row row_world
           (mk_ndarray [1; 2; 1] np_uint8 [5; 5]%Z) 2 1 2 transform_1x2);
    try reflexivity; try discriminate.
  apply (far_away_misses_window burn_row (series_patch [10; 20]%Z));
    reflexivity.
Defined.


Lemma mask_marks_exactly_permitted_witness :
  exists mask b,
    build_mask vectorize_12 series_mask = Some mask /\
    length (data series_mask) = size_of (shape series_mask) /\
    data series_mask !! 3 = Some 2%Z /\
    shape mask = [2; 1; 2; 1] /\
    data mask !! 3 = Some b /\ (b = true <-> In 2%Z [1; 2]%Z).
Proof.
  eexists.
  assert (Hm : build_mask vectorize_12 series_mask = Some _)
    by reflexivity.
  destruct (mask_marks_exactly_permitted vectorize_12 series_mask _ 3 2%Z
              Hm eq_refl eq_refl) as (Hshape & b & Hb & Hiff).
  exists b. auto 6.
Defined.

Lemma single_table_schema_witness :
  _vectorize_single_raster vectorize_12 (take_first series_mask 0)
                           transform_1x2 (mk_CRS "4326") (Some 10%Z)
  = Ok (slice_table 10 1 0) /\
  well_formed (slice_table 10 1 0) /\
  is_Some (columns (slice_table 10 1 0) !! "VALUE").
Proof.
  assert (Hg : _vectorize_single_raster vectorize_12
                 (take_first series_mask 0) transform_1x2 (mk_CRS "4326")
                 (Some 10%Z) = Ok (slice_table 10 1 0))
    by (vm_compute; reflexivity).
  destruct (single_table_schema _ _ _ _ _ _ Hg) as [Hwf Hcols].
  split; [exact Hg|]. split; [exact Hwf|].
  apply Hcols. right. left. reflexivity.
Defined.

Lemma channels_concatenated_in_order_witness :
  last_dim two_channel_mask = Ok 2 /\
  exists g,
    _vectorize_single_raster vectorize_timeless two_channel_mask
                             transform_1x2 (mk_CRS "4326") None
    = Ok g /\
    nrows g = 4 /\
    columns g !! "geometry"
    = Some [CGeom [(0, 1)%Z]; CGeom [(2, 1)%Z];
            CGeom [(0, 1)%Z]; CGeom [(2, 1)%Z]] /\
    columns g !! "VALUE" = Some [CValue 1; CValue 3; CValue 2; CValue 4].
Proof.
  split; [reflexivity|].
  destruct (channels_concatenated_in_order vectorize_timeless
              two_channel_mask transform_1x2 (mk_CRS "4326") None 2
              [[(mk_GeoJSON [0] [(0, 1)%Z], 1%Z);
                (mk_GeoJSON [1] [(2, 1)%Z], 3%Z)];
               [(mk_GeoJSON [0] [(0, 1)%Z], 2%Z);
                (mk_GeoJSON [1] [(2, 1)%Z], 4%Z)]]
              eq_refl eq_refl)
    as (g & Hg & Hn & Hgeo & Hval).
  - intros [|[|idx]] found Hf; [| |discriminate Hf];
      injection Hf as <-; vm_compute; reflexivity.
  - exists g. split; [exact Hg|]. split; [exact Hn|]. split.
    + apply Hgeo. discriminate.
    + apply (Hval "VALUE" eq_refl). right. reflexivity.
Defined.

Lemma failing_channel_raises_witness :
  last_dim flat_mask = Ok 2 /\
  channel_shapes vectorize_timeless flat_mask transform_1x2 0
  = Raise ValueError /\
  _vectorize_single_raster vectorize_timeless flat_mask transform_1x2
                           (mk_CRS "4326") None
  = Raise ValueError.
Proof.
  split; [reflexivity|]. split; [reflexivity|].
  apply (failing_channel_raises vectorize_timeless flat_mask transform_1x2
           (mk_CRS "4326") None 2 0 ValueError eq_refl).
  - lia.
  - intros idx Hidx. lia.
  - reflexivity.
Defined.


Lemma RasterToVector_execute_touches_only_destinations_witness :
  rasters (patch (snd (RasterToVector_execute vectorize_12
                         (series_world [10; 20]%Z))))
  = rasters (patch (series_world [10; 20]%Z)) /\
  vectors (patch (snd (RasterToVector_execute vectorize_12
                         (series_world [10; 20]%Z))))
    !! (VECTOR_TIMELESS, "v")
  = vectors (patch (series_world [10; 20]%Z)) !! (VECTOR_TIMELESS, "v").
Proof.
  destruct (RasterToVector_execute_touches_only_destinations vectorize_12
              (series_world [10; 20]%Z)) as (Hr & _ & _ & _ & Hv).
  split; [exact Hr|]. apply Hv.
  intros f [<-|[]]. discriminate.
Defined.

Lemma missing_timestamp_raises_witness :
  length (timestamp (patch (series_world [10%Z])))
  < default 0 (head (shape (cast_raster vectorize_12 series_mask))) /\
  vectorize_feature vectorize_12 (MASK, "m", "v") (series_world [10%Z])
  = (Raise IndexError, series_world [10%Z]).
Proof.
  assert (Hfew : length (timestamp (patch (series_world [10%Z])))
                 < default 0 (head (shape (cast_raster vectorize_12
                                                       series_mask))))
    by (cbn; lia).
  split; [exact Hfew|].
  apply (missing_timestamp_raises vectorize_12 MASK "m" "v"
           (series_world [10%Z]) series_mask 1 2 transform_1x2
           eq_refl eq_refl eq_refl eq_refl Hfew).
  intros [|i] stamp Hs; [|discriminate Hs].
  injection Hs as <-. eexists. vm_compute. reflexivity.
Defined.

Lemma too_few_axes_raise_witness :
  length (shape flat_mask) < 2 /\
  vectorize_feature vectorize_timeless (MASK_TIMELESS, "flat", "v") odd_world
  = (Raise ValueError, odd_world).
Proof.
  assert (Hlen : length (shape flat_mask) < 2) by (cbn; lia).
  split; [exact Hlen|].
  exact (too_few_axes_raise vectorize_timeless MASK_TIMELESS "flat" "v"
           odd_world flat_mask eq_refl Hlen).
Defined.

Lemma stored_table_well_formed_witness :
  fst (vectorize_feature vectorize_12 (MASK, "m", "v")
                         (series_world [10; 20]%Z)) = Ok tt /\
  exists table,
    vectors (patch (snd (vectorize_feature vectorize_12 (MASK, "m", "v")
                           (series_world [10; 20]%Z))))
      !! (VECTOR, "v") = Some table /\
    well_formed table.
Proof.
  assert (Hok : fst (vectorize_feature vectorize_12 (MASK, "m", "v")
                       (series_world [10; 20]%Z)) = Ok tt)
    by (vm_compute; reflexivity).
  split; [exact Hok|].
  exact (stored_table_well_formed vectorize_12 (MASK, "m", "v")
           (series_world [10; 20]%Z) Hok).
Defined.

Lemma no_time_slice_raises_witness :
  head (shape (cast_raster vectorize_12
                 (mk_ndarray [0; 1; 2; 1] np_uint8 []))) = Some 0 /\
  vectorize_feature vectorize_12 (MASK, "none", "v") odd_world
  = (Raise ValueError, odd_world).
Proof.
  split; [reflexivity|].
  exact (no_time_slice_raises vectorize_12 MASK "none" "v" odd_world
           (mk_ndarray [0; 1; 2; 1] np_uint8 []) 1 2 transform_1x2
           eq_refl eq_refl eq_refl eq_refl eq_refl).
Defined.

Lemma accepts_burn_existing_again :
  kernel_accepts burn_existing
                 (snd (VectorToRaster_execute burn_existing world_roads))
                 2 3 transform_2x3.
Proof.
  intros base shared Hbase _. vm_compute in Hbase.
  injection Hbase as <- <-. eexists. reflexivity.
Qed.

Lemma burning_twice_is_burning_once_witness :
  fst (VectorToRaster_execute burn_existing world_roads) = Ok tt /\
  fst (VectorToRaster_execute burn_existing
         (snd (VectorToRaster_execute burn_existing world_roads))) = Ok tt /\
  patch (snd (VectorToRaster_execute burn_existing
                (snd (VectorToRaster_execute burn_existing world_roads))))
  = patch (snd (VectorToRaster_execute burn_existing world_roads)).
Proof.
  assert (Hmerge : merge_alg (params burn_existing) <> Some merge_add)
    by discriminate.
  assert (Hvd : is_Some (frames world_roads !! vector_data burn_existing))
    by (eexists; reflexivity).
  exact (burning_twice_is_burning_once burn_existing world_roads
           (mk_ndarray [2; 3; 1] np_uint8 [7; 7; 7; 7; 7; 7]%Z)
           2 3 transform_2x3 pixel_rasterize_frame pixel_rasterize_writes
           Hmerge Hvd eq_refl eq_refl eq_refl accepts_burn_existing
           accepts_burn_existing_again).
Defined.

Lemma rows_outside_window_are_ignored_witness :
  input_frame burn_existing world_more_roads
  <> input_frame burn_existing world_roads /\
  fst (VectorToRaster_execute burn_existing world_more_roads)
  = fst (VectorToRaster_execute burn_existing world_roads) /\
  patch (snd (VectorToRaster_execute burn_existing world_more_roads))
  = patch (snd (VectorToRaster_execute burn_existing world_roads)).
Proof.
  split; [discriminate|].
  exact (rows_outside_window_are_ignored burn_existing world_roads
           world_more_roads eq_refl eq_refl).
Defined.

Lemma features_are_vectorized_independently_witness :
  fst (RasterToVector_execute vectorize_both (series_world [10; 20]%Z))
  = Ok tt /\
  List.NoDup (map destination (feature_gen vectorize_both)) /\
  exists table,
    vectorize_feature vectorize_both (MASK_TIMELESS, "t", "u")
                      (series_world [10; 20]%Z)
    = set_vector VECTOR_TIMELESS "u" table (series_world [10; 20]%Z) /\
    vectors (patch (snd (RasterToVector_execute vectorize_both
                           (series_world [10; 20]%Z))))
      !! (VECTOR_TIMELESS, "u") = Some table /\
    is_Some (vectors (patch (snd (RasterToVector_execute vectorize_both
                                    (series_world [10; 20]%Z))))
               !! (VECTOR, "v")).
Proof.
  assert (Hok : fst (RasterToVector_execute vectorize_both
                       (series_world [10; 20]%Z)) = Ok tt)
    by (vm_compute; reflexivity).
  assert (Hnodup : List.NoDup (map destination (feature_gen vectorize_both))).
  { cbn. constructor; [|constructor; [|constructor]].
    - intros [Heq|[]]. discriminate Heq.
    - intros []. }
  split; [exact Hok|]. split; [exact Hnodup|].
  destruct (features_are_vectorized_independently vectorize_both
              (series_world [10; 20]%Z) Hok Hnodup
              (MASK_TIMELESS, "t", "u"))
    as (table & Hone & Hstored).
  - right. left. reflexivity.
  - exists table. split; [exact Hone|]. split; [exact Hstored|].
    vm_compute. eexists. reflexivity.
Defined.
